(** * class-notify: the status tracker and its notification debounce

    A shallow embedding of [backend/app.py]: the two in-memory dictionaries
    [tracked_classes] and [notify_tracker], the status check
    [check_class_statuses], the reminder job [hourly_reminder_check], the
    immediate check run by [add_tracked_class], and [send_notification].

    Dictionaries are finite maps.  A tracker is a mutable Python dict that
    [notify_tracker] holds by reference, so trackers live in a store of
    objects ([heap]) and the dictionary maps a class number to the
    location of its tracker: a tracker that was built but never put in
    the dictionary is a location no key leads to.

    A loop over a dictionary visits its entries in the order of
    [map_to_list], which need not be the insertion order Python keeps; the
    statements below are per class and do not depend on the order.  Every
    function returns the new state together with the calls of
    [send_notification] it made, in order. *)

From Stdlib Require Import Ascii.
From stdpp Require Import base numbers option list strings pretty gmap fin_maps.

Local Open Scope string_scope.
Local Open Scope Z_scope.
Local Open Scope list_scope.

(** ** Constants (lines 27-28) *)

Definition MAX_NOTIFICATIONS : Z := 10.
Definition NOTIFICATION_INTERVAL_HOURS : Z := 1.

(** ** Data *)

(** One entry of a fetch result, also the value kept in [tracked_classes]. *)
Record details := Details {
  classNumber : string;
  className : string;
  status : string;
  title : string;
  instructor : string;
  seats : string
}.

(** The dict [{'count': .., 'lastSent': .., 'lastStatus': ..}]. *)
Record tracker := Tracker {
  count : Z;
  lastSent : Z;
  lastStatus : string
}.

(** The literal [{'count': 0, 'lastSent': 0, 'lastStatus': 'FULL'}]. *)
Definition fresh_tracker : tracker := Tracker 0 0 "FULL".

#[global] Instance tracker_inhabited : Inhabited tracker := populate fresh_tracker.

#[global] Instance details_eq_dec : EqDecision details.
Proof. solve_decision. Defined.

#[global] Instance tracker_eq_dec : EqDecision tracker.
Proof. solve_decision. Defined.

(** A location of the object store. *)
Abbreviation loc := nat (only parsing).

Record settings := Settings {
  term : string;
  ntfyTopic : string
}.

Record state := State {
  tracked_classes : gmap string details;
  notify_tracker : gmap string loc;
  heap : list tracker;
  app_settings : settings
}.

(** Nothing tracked, the settings of line 24. *)
Definition initial_state : state :=
  State ∅ ∅ [] (Settings "2257" "susumaanclassalerts").

(** ** The text of an alert

    Lines 157-166 build a title and a message by interpolation; the alert
    is kept by the values that are interpolated. *)
Inductive message :=
| SeatOpen (class_name number : string)
| ClassFull (class_name number : string)
| StillOpen (class_name number : string) (shown max : Z).

#[global] Instance message_eq_dec : EqDecision message.
Proof. solve_decision. Defined.

(** The arguments of [requests.post] at lines 173-177. *)
Record request := Request {
  req_topic : string;
  req_message : message;
  req_details : details
}.

(** What one call of [send_notification] did. *)
Inductive outcome :=
| NoTopic                  (* lines 150-152: no topic, skipped with a warning *)
| NoMessage                (* line 167: a reason that has no text *)
| Sent (r : request)       (* [requests.post] returned, line 178 *)
| SendError (r : request). (* [requests.post] raised, caught at line 179 *)

(** A call [send_notification(class_details, reason)] and its outcome. *)
Record notification := Notification {
  reason : string;
  class_details : details;
  result : outcome
}.

(** The notifier sink: whether [requests.post] returns ([true]) or raises. *)
Definition sink := request → bool.

(** The snapshot source [class_checker.fetch_class_details(name, term)],
    by the list it returns.  Lines 89 and 112 call it without a handler; a
    call that raises is the subject of [raising_source] below. *)
Definition source := string → string → list details.

(** ** The object store *)

Definition tracker_at_loc (l : loc) (st : state) : tracker := heap st !!! l.

(** The tracker the dictionary holds for [num], if any. *)
Definition tracker_of (st : state) (num : string) : option tracker :=
  l ← notify_tracker st !! num; heap st !! l.

(** A new dict object. *)
Definition alloc (t : tracker) (st : state) : loc * state :=
  (length (heap st),
   State (tracked_classes st) (notify_tracker st) (heap st ++ [t]) (app_settings st)).

(** In-place mutation of the dict at [l]. *)
Definition mutate (l : loc) (f : tracker → tracker) (st : state) : state :=
  State (tracked_classes st) (notify_tracker st) (alter f l (heap st)) (app_settings st).

(** [tracker.update({'count': c, 'lastSent': s})] *)
Definition update_count_lastSent (c s : Z) (t : tracker) : tracker :=
  Tracker c s (lastStatus t).

(** [tracker['lastStatus'] = s] *)
Definition set_lastStatus (s : string) (t : tracker) : tracker :=
  Tracker (count t) (lastSent t) s.

(** [tracker['count'] += 1] *)
Definition incr_count (t : tracker) : tracker :=
  Tracker (count t + 1) (lastSent t) (lastStatus t).

(** [tracker['lastSent'] = s] *)
Definition set_lastSent (s : Z) (t : tracker) : tracker :=
  Tracker (count t) s (lastStatus t).

(** [tracked_classes[num] = d] *)
Definition set_tracked (num : string) (d : details) (st : state) : state :=
  State (<[num := d]> (tracked_classes st)) (notify_tracker st) (heap st) (app_settings st).

(** [notify_tracker[num] = l] *)
Definition set_notify (num : string) (l : loc) (st : state) : state :=
  State (tracked_classes st) (<[num := l]> (notify_tracker st)) (heap st) (app_settings st).

(** ** [send_notification] (lines 148-180) *)

(** Lines 157-167.  The reminder reads
    [notify_tracker.get(number, {}).get('count', 0)]. *)
Definition render (st : state) (d : details) (reason : string) : option message :=
  if decide (reason = "OPEN") then Some (SeatOpen (className d) (classNumber d))
  else if decide (reason = "FULL") then Some (ClassFull (className d) (classNumber d))
  else if decide (reason = "REMINDER") then
    let count := default 0 (count <$> tracker_of st (classNumber d)) in
    Some (StillOpen (className d) (classNumber d) count MAX_NOTIFICATIONS)
  else None.

Definition send_notification (post : sink) (st : state) (d : details)
    (reason : string) : notification :=
  let ntfy_topic := ntfyTopic (app_settings st) in
  Notification reason d
    (if decide (ntfy_topic = "") then NoTopic
     else match render st d reason with
          | None => NoMessage
          | Some m =>
              let r := Request ntfy_topic m d in
              if post r then Sent r else SendError r   (* try / except *)
          end).

(** ** The per-entity branch of [check_class_statuses] (lines 117-134)

    [new_details] is [fresh_details_map[num]] and [now] is the clock read
    at line 129.  Python builds the default of [.get] also when the key is
    there; that dict is dropped at once, and only the one that is used is
    allocated here. *)
Definition observe (post : sink) (now : Z) (num : string) (new_details : details)
    (st : state) : state * list notification :=
  let st := set_tracked num new_details st in
  let '(tracker, st) :=
    match notify_tracker st !! num with
    | Some l => (l, st)
    | None => alloc fresh_tracker st      (* the default of [.get], not stored *)
    end in
  let old_status := lastStatus (tracker_at_loc tracker st) in
  let new_status := status new_details in
  if decide (new_status = old_status) then (st, [])
  else
    let '(st, out) :=
      if decide (new_status = "OPEN") then
        let st := mutate tracker (update_count_lastSent 0 0) st in
        let n := send_notification post st new_details "OPEN" in
        (mutate tracker (update_count_lastSent 1 now) st, [n])
      else if decide (new_status = "FULL" ∧ old_status = "OPEN") then
        let n := send_notification post st new_details "FULL" in
        (mutate tracker (update_count_lastSent 0 0) st, [n])
      else (st, []) in
    (mutate tracker (set_lastStatus new_status) st, out).

(** ** Loops

    [for x in xs: body], with the notifications of the iterations in order. *)
Fixpoint for_each {A : Type} (body : A → state → state * list notification)
    (xs : list A) (st : state) : state * list notification :=
  match xs with
  | [] => (st, [])
  | x :: xs =>
      let '(st1, out1) := body x st in
      let '(st2, out2) := for_each body xs st1 in
      (st2, out1 ++ out2)
  end.

(** ** [check_class_statuses] (lines 103-134) *)

(** Lines 108-109: the [defaultdict(list)] from class name to class numbers. *)
Definition classes_to_fetch (tracked : gmap string details) : gmap string (list string) :=
  foldl (λ acc d, <[className d := default [] (acc !! className d) ++ [classNumber d]]> acc)
        ∅ (snd <$> map_to_list tracked).

(** Line 113: [{d['classNumber']: d for d in fresh_details_list}]; a later
    entry replaces an earlier one with the same number. *)
Definition fresh_details_map (l : list details) : gmap string details :=
  foldl (λ m d, <[classNumber d := d]> m) ∅ l.

(** Lines 116-134 for one [num]; [time_ms num] is the clock as read while
    [num] is handled. *)
Definition check_num (post : sink) (time_ms : string → Z)
    (fresh : gmap string details) (num : string) (st : state)
    : state * list notification :=
  match fresh !! num with
  | None => (st, [])                                   (* line 116 *)
  | Some new_details => observe post (time_ms num) num new_details st
  end.

(** Lines 112-134 for one group. *)
Definition check_group (fetch : source) (post : sink) (time_ms : string → Z)
    (group : string * list string) (st : state) : state * list notification :=
  let fresh_details_list := fetch group.1 (term (app_settings st)) in
  for_each (check_num post time_ms (fresh_details_map fresh_details_list)) group.2 st.

Definition check_class_statuses (fetch : source) (post : sink) (time_ms : string → Z)
    (st : state) : state * list notification :=
  if decide (tracked_classes st = ∅) then (st, [])     (* line 106 *)
  else for_each (check_group fetch post time_ms)
         (map_to_list (classes_to_fetch (tracked_classes st))) st.

(** ** [hourly_reminder_check] (lines 136-146) *)

(** Lines 140-146 for one item [(num, tracker)]. *)
Definition remind_one (post : sink) (now : Z) (item : string * loc) (st : state)
    : state * list notification :=
  let '(num, tracker) := item in
  match tracked_classes st !! num with
  | None => (st, [])
  | Some d =>
      if decide (status d ≠ "OPEN") then (st, [])
      else
        let t := tracker_at_loc tracker st in
        if decide (0 < count t < MAX_NOTIFICATIONS
                   ∧ now - lastSent t >= NOTIFICATION_INTERVAL_HOURS * 60 * 60 * 1000) then
          let n := send_notification post st d "REMINDER" in
          let st := mutate tracker incr_count st in
          (mutate tracker (set_lastSent now) st, [n])
        else (st, [])
  end.

Definition hourly_reminder_check (post : sink) (now : Z) (st : state)
    : state * list notification :=
  for_each (remind_one post now) (map_to_list (notify_tracker st)) st.

(** ** Adding and removing a class (lines 68-101) *)

(** Lines 92-100, for the entry of the fetch result that has the class
    number. *)
Definition immediate_check_match (post : sink) (now : Z) (class_number : string)
    (fresh_details : details) (st : state) : state * list notification :=
  let st := set_tracked class_number fresh_details st in
  if decide (status fresh_details = "OPEN") then
    let '(tracker, st) := alloc fresh_tracker st in
    let st := set_notify class_number tracker st in
    let n := send_notification post st fresh_details "OPEN" in
    (mutate tracker (λ _, Tracker 1 now "OPEN") st, [n])
  else
    let '(tracker, st) := alloc fresh_tracker st in
    (set_notify class_number tracker st, []).

(** The loop of lines 90-101 over the fetch result, left at the first
    match. *)
Fixpoint immediate_check_loop (post : sink) (now : Z) (class_number : string)
    (fresh_details_list : list details) (st : state) : state * list notification :=
  match fresh_details_list with
  | [] => (st, [])
  | fresh_details :: rest =>
      if decide (classNumber fresh_details = class_number) then
        immediate_check_match post now class_number fresh_details st
      else immediate_check_loop post now class_number rest st
  end.

Definition perform_immediate_check (fetch : source) (post : sink) (now : Z)
    (class_details : details) (st : state) : state * list notification :=
  let class_number := classNumber class_details in
  let fresh_details_list := fetch (className class_details) (term (app_settings st)) in
  immediate_check_loop post now class_number fresh_details_list st.

(** The response of [add_tracked_class]: the 400 error or the 201 list.
    The list holds the snapshots of [tracked_classes] in the order of
    [map_to_list]; line 77 lists the same snapshots in insertion order, which
    a finite map does not keep, so nothing is stated about the order. *)
Inductive response :=
| BadRequest
| Created (tracked : list details).

Definition add_tracked_class (fetch : source) (post : sink) (now : Z)
    (class_details : details) (st : state) : response * state * list notification :=
  let class_number := classNumber class_details in
  if decide (class_number = "") then (BadRequest, st, [])
  else
    let st := set_tracked class_number class_details st in
    let '(st, out) := perform_immediate_check fetch post now class_details st in
    (Created (snd <$> map_to_list (tracked_classes st)), st, out).

(** [delete_tracked_class] (lines 79-84): both entries are popped. *)
Definition delete_tracked_class (class_number : string) (st : state) : state :=
  State (delete class_number (tracked_classes st))
        (delete class_number (notify_tracker st))
        (heap st) (app_settings st).

(** [update_settings] (lines 48-60): a new term empties both dictionaries. *)
Definition update_settings (new_term new_topic : option string) (st : state) : state :=
  let st :=
    match new_term with
    | Some t =>
        if decide (t ≠ term (app_settings st)) then
          State ∅ ∅ (heap st) (Settings t (ntfyTopic (app_settings st)))
        else st
    | None => st
    end in
  match new_topic with
  | Some topic =>
      State (tracked_classes st) (notify_tracker st) (heap st)
            (Settings (term (app_settings st)) topic)
  | None => st
  end.

(** ** Sequences of status checks and reminder runs *)

Inductive op :=
| Observe (fetch : source) (post : sink) (time_ms : string → Z)
| Tick (post : sink) (now : Z).

Definition apply_op (o : op) (st : state) : state * list notification :=
  match o with
  | Observe fetch post time_ms => check_class_statuses fetch post time_ms st
  | Tick post now => hourly_reminder_check post now st
  end.

Definition run (ops : list op) (st : state) : state * list notification :=
  for_each apply_op ops st.

(** The states the service can be in: what the requests and the two jobs
    make of the initial state. *)
Inductive reachable : state → Prop :=
| reachable_initial : reachable initial_state
| reachable_settings new_term new_topic st :
    reachable st → reachable (update_settings new_term new_topic st)
| reachable_add fetch post now cd st :
    reachable st → reachable (add_tracked_class fetch post now cd st).1.2
| reachable_delete k st :
    reachable st → reachable (delete_tracked_class k st)
| reachable_check fetch post time_ms st :
    reachable st → reachable (check_class_statuses fetch post time_ms st).1
| reachable_tick post now st :
    reachable st → reachable (hourly_reminder_check post now st).1.

(** ** A status check whose fetch raises

    A call of [class_checker.fetch_class_details] that raises: [None]
    stands for the exception, [Some l] for the list returned. *)
Definition raising_source := string → string → option (list details).

(** Lines 111-134 with such a source.  Neither loop has a handler, so the
    first exception leaves both loops and the function: the groups reached
    before it have been handled, the others are not reached.  The flag says
    whether an exception left the function. *)
Fixpoint check_groups_raising (fetch : raising_source) (post : sink)
    (time_ms : string → Z) (groups : list (string * list string)) (st : state)
    : state * list notification * bool :=
  match groups with
  | [] => (st, [], false)
  | group :: groups =>
      match fetch group.1 (term (app_settings st)) with
      | None => (st, [], true)
      | Some fresh_details_list =>
          let '(st1, out1) :=
            for_each (check_num post time_ms (fresh_details_map fresh_details_list))
                     group.2 st in
          let '(st2, out2, raised) :=
            check_groups_raising fetch post time_ms groups st1 in
          (st2, out1 ++ out2, raised)
      end
  end.

(** [check_class_statuses] (lines 103-134) with a source that can raise. *)
Definition check_class_statuses_raising (fetch : raising_source) (post : sink)
    (time_ms : string → Z) (st : state) : state * list notification * bool :=
  if decide (tracked_classes st = ∅) then (st, [], false)
  else check_groups_raising fetch post time_ms
         (map_to_list (classes_to_fetch (tracked_classes st))) st.

(** ** Well-formed states

    Every stored reference points to a live tracker, no tracker object is
    stored under two keys, and a snapshot is filed under its own number. *)
Record wf (st : state) : Prop := Wf {
  wf_live : ∀ k l, notify_tracker st !! k = Some l → (l < length (heap st))%nat;
  wf_unshared : ∀ k1 k2 l,
    notify_tracker st !! k1 = Some l → notify_tracker st !! k2 = Some l → k1 = k2;
  wf_keyed : ∀ k d, tracked_classes st !! k = Some d → classNumber d = k
}.

(** Every stored count lies between 0 and [MAX_NOTIFICATIONS]. *)
Definition counts_in_range (st : state) : Prop :=
  ∀ k t, tracker_of st k = Some t → 0 ≤ count t ≤ MAX_NOTIFICATIONS.

(** ** Reading the notifications *)

(** The notifications of [out] sent for class [k] with reason [r]. *)
Definition emitted (r k : string) (out : list notification) : list notification :=
  filter (λ n, reason n = r ∧ classNumber (class_details n) = k) out.

(** The notifications of [out] sent for class [k]. *)
Definition about (k : string) (out : list notification) : list notification :=
  filter (λ n, classNumber (class_details n) = k) out.

(** A call of [send_notification] without its outcome. *)
Definition call (n : notification) : string * details := (reason n, class_details n).

(** The text a notification was posted with, when it was posted. *)
Definition message_of (n : notification) : option message :=
  match result n with
  | Sent r | SendError r => Some (req_message r)
  | NoTopic | NoMessage => None
  end.

(** ** Notions of the proofs *)

(** What lines 123-134 leave in a tracker that held [t]. *)
Definition edge_tracker (now : Z) (new_status : string) (t : tracker) : tracker :=
  if decide (new_status = lastStatus t) then t
  else if decide (new_status = "OPEN") then Tracker 1 now new_status
  else if decide (new_status = "FULL" ∧ lastStatus t = "OPEN") then Tracker 0 0 new_status
  else set_lastStatus new_status t.

(** What lines 123-134 send when the tracker held [t]. *)
Definition edge_out (post : sink) (st : state) (new_details : details) (t : tracker)
    : list notification :=
  if decide (status new_details = lastStatus t) then []
  else if decide (status new_details = "OPEN") then
    [send_notification post st new_details "OPEN"]
  else if decide (status new_details = "FULL" ∧ lastStatus t = "OPEN") then
    [send_notification post st new_details "FULL"]
  else [].

(** All a loop body can see of class [k]. *)
Definition view (st : state) (k : string) : option details * option loc * option tracker :=
  (tracked_classes st !! k, notify_tracker st !! k, tracker_of st k).

(** Lines 112-134 for one class number of the group [x.1], when the term
    is [term0]. *)
Definition check_task (fetch : source) (post : sink) (time_ms : string → Z)
    (term0 : string) (x : string * string) (st : state) : state * list notification :=
  check_num post time_ms (fresh_details_map (fetch x.1 term0)) x.2 st.

(** The pairs of a class name and a class number in the order the nested
    loops of lines 111-115 reach them. *)
Definition tasks_of (groups : list (string * list string)) : list (string * string) :=
  g ← groups; (λ num, (g.1, num)) <$> g.2.

(** The reminders class [k] can still get before its next opening alert. *)
Definition reminders_left (st : state) (k : string) : Z :=
  match tracker_of st k with
  | Some t => if decide (0 < count t) then MAX_NOTIFICATIONS - count t else 0
  | None => 0
  end.

(** ** A worked example: one section of CSE 110, one of MAT 265 *)

Definition cse110 (s : string) : details :=
  Details "12345" "CSE 110" s "Principles of Programming" "Smith" "0 of 30".

Definition mat265 (s : string) : details :=
  Details "67890" "MAT 265" s "Calculus I" "Jones" "3 of 40".

(** A source that knows no class. *)
Definition no_data : source := λ _ _, [].

(** A source that has CSE 110 only, in status [s]. *)
Definition cse110_only (s : string) : source :=
  λ name _, if decide (name = "CSE 110") then [cse110 s] else [].

(** A source that has MAT 265 only, in status [s]. *)
Definition mat265_only (s : string) : source :=
  λ name _, if decide (name = "MAT 265") then [mat265 s] else [].

(** A source that has both classes, OPEN. *)
Definition both_open : source :=
  λ name _, if decide (name = "CSE 110") then [cse110 "OPEN"] else [mat265 "OPEN"].


(** A sink that delivers, and one whose every delivery raises. *)
Definition delivers : sink := λ _, true.

Definition raises : sink := λ _, false.

(** CSE 110 was added while the source had nothing on it. *)
Definition st_unseen : state :=
  (add_tracked_class no_data delivers 0 (cse110 "FULL") initial_state).1.2.

(** CSE 110 was added while full. *)
Definition st_full : state :=
  (add_tracked_class (cse110_only "FULL") delivers 0 (cse110 "FULL") initial_state).1.2.

(** CSE 110 was added while open, at time 1000. *)
Definition st_open : state :=
  (add_tracked_class (cse110_only "OPEN") delivers 1000 (cse110 "OPEN") initial_state).1.2.

(** CSE 110 and MAT 265 were both added while full. *)
Definition st_two : state :=
  (add_tracked_class (mat265_only "FULL") delivers 0 (mat265 "FULL") st_full).1.2.

(** ** The term name and the two settings endpoints (lines 31-60)

    A call either returns or raises the [ValueError] of [int]. *)
Inductive py (A : Type) :=
| Returns (a : A)
| ValueError.

Arguments Returns {A} a.
Arguments ValueError {A}.

(** [get_term_name] (lines 31-38).  Python's built-in [int] is the
    parameter [int], with [None] where it raises; a character of a string
    is one [ascii].  The pattern is line 32: a code that is empty or not
    four characters long has no name. *)
Definition get_term_name (int : string → option Z) (term_code : string) : py string :=
  match term_code with
  | String _ (String c1 (String c2 (String term_char EmptyString))) =>
      match int (String c1 (String c2 EmptyString)) with
      | None => ValueError
      | Some n =>
          let year := 2000 + n in
          if decide (term_char = "1"%char) then Returns ("Spring " +:+ pretty year)
          else if decide (term_char = "4"%char) then Returns ("Summer " +:+ pretty year)
          else if decide (term_char = "7"%char) then Returns ("Fall " +:+ pretty year)
          else Returns "Unknown Term"
      end
  | _ => Returns "Unknown Term"
  end.

(** The JSON of [get_full_state] (lines 41-46).  The tracked snapshots come
    in the order of [map_to_list], not in the insertion order of line 45. *)
Record full_state := FullState {
  fs_term : string;
  fs_termName : string;
  fs_ntfyTopic : string;
  fs_trackedClasses : list details
}.

Definition get_full_state (int : string → option Z) (st : state) : py full_state :=
  match get_term_name int (term (app_settings st)) with
  | Returns name =>
      Returns (FullState (term (app_settings st)) name (ntfyTopic (app_settings st))
                         (snd <$> map_to_list (tracked_classes st)))
  | ValueError => ValueError
  end.

(** The JSON of [update_settings] (line 60), built after the settings and
    the dictionaries were changed. *)
Record settings_reply := SettingsReply {
  sr_termName : string;
  sr_termChanged : bool
}.

Definition update_settings_reply (int : string → option Z)
    (new_term new_topic : option string) (st : state) : py settings_reply :=
  let term_changed :=
    match new_term with
    | Some t => bool_decide (t ≠ term (app_settings st))
    | None => false
    end in
  match get_term_name int (term (app_settings (update_settings new_term new_topic st))) with
  | Returns name => Returns (SettingsReply name term_changed)
  | ValueError => ValueError
  end.

(** The character of the decimal digit [d]. *)
Definition digit (d : Z) : ascii := ascii_of_nat (48 + Z.to_nat d).

(** What [int] does on a string of decimal digits; on the signs, blanks
    and underscores that Python's [int] also takes it gives up. *)
Definition digit_of (c : ascii) : option Z :=
  let n := Z.of_nat (nat_of_ascii c) in
  if decide (48 ≤ n ≤ 57) then Some (n - 48) else None.

Fixpoint decimal_go (acc : Z) (s : string) : option Z :=
  match s with
  | EmptyString => Some acc
  | String c s => d ← digit_of c; decimal_go (10 * acc + d) s
  end.

Definition decimal (s : string) : option Z :=
  if decide (s = "") then None else decimal_go 0 s.

(** [int] reads two decimal digits as Python's does. *)
Definition reads_decimals (int : string → option Z) : Prop :=
  ∀ a b, 0 ≤ a ≤ 9 → 0 ≤ b ≤ 9 →
    int (String (digit a) (String (digit b) EmptyString)) = Some (10 * a + b).

(** The times [nows] are each at least an hour after the one before,
    the first at least an hour after [last]. *)
Fixpoint spaced (last : Z) (nows : list Z) : Prop :=
  match nows with
  | [] => True
  | now :: nows => now - last >= 3600000 ∧ spaced now nows
  end.

(** ** The object store: reads after writes *)

Lemma tracker_of_stored st k l :
  notify_tracker st !! k = Some l → tracker_of st k = heap st !! l.
Proof. intros H. unfold tracker_of. by rewrite H. Qed.

Lemma tracker_of_absent st k :
  notify_tracker st !! k = None → tracker_of st k = None.
Proof. intros H. unfold tracker_of. by rewrite H. Qed.

Lemma tracker_at_loc_stored st l t :
  heap st !! l = Some t → tracker_at_loc l st = t.
Proof. intros H. unfold tracker_at_loc. by apply list_lookup_total_correct. Qed.

Lemma wf_stored st k l :
  wf st → notify_tracker st !! k = Some l → ∃ t, heap st !! l = Some t.
Proof.
  intros Hwf Hk. apply lookup_lt_is_Some_2. by eapply wf_live.
Qed.

Lemma heap_mutate_eq l f st :
  heap (mutate l f st) !! l = f <$> heap st !! l.
Proof. apply list_lookup_alter_eq. Qed.

Lemma heap_mutate_ne l l' f st :
  l ≠ l' → heap (mutate l f st) !! l' = heap st !! l'.
Proof. intros. by apply list_lookup_alter_ne. Qed.

Lemma length_heap_mutate l f st :
  length (heap (mutate l f st)) = length (heap st).
Proof. apply length_alter. Qed.

Lemma tracker_of_mutate_eq st k l f :
  notify_tracker st !! k = Some l →
  tracker_of (mutate l f st) k = f <$> tracker_of st k.
Proof.
  intros H. unfold tracker_of. simpl. rewrite H. simpl. apply list_lookup_alter_eq.
Qed.

Lemma tracker_of_mutate_ne st k l f :
  notify_tracker st !! k ≠ Some l →
  tracker_of (mutate l f st) k = tracker_of st k.
Proof.
  intros H. unfold tracker_of. simpl.
  destruct (notify_tracker st !! k) as [l'|] eqn:E; simpl; [|done].
  apply list_lookup_alter_ne. congruence.
Qed.

Lemma tracker_of_alloc st t k :
  wf st → tracker_of (alloc t st).2 k = tracker_of st k.
Proof.
  intros Hwf. unfold tracker_of. simpl.
  destruct (notify_tracker st !! k) as [l|] eqn:E; simpl; [|done].
  apply lookup_app_l. by eapply wf_live.
Qed.

Lemma send_notification_settings post st1 st2 d r :
  r ≠ "REMINDER" → app_settings st1 = app_settings st2 →
  send_notification post st1 d r = send_notification post st2 d r.
Proof.
  intros Hr Hs. unfold send_notification, render. rewrite Hs.
  repeat case_decide; done.
Qed.

Lemma send_notification_local post st1 st2 d r :
  tracker_of st1 (classNumber d) = tracker_of st2 (classNumber d) →
  app_settings st1 = app_settings st2 →
  send_notification post st1 d r = send_notification post st2 d r.
Proof.
  intros Ht Hs. unfold send_notification, render. by rewrite Hs, Ht.
Qed.

Lemma send_notification_reason post st d r :
  reason (send_notification post st d r) = r.
Proof. done. Qed.

Lemma send_notification_details post st d r :
  class_details (send_notification post st d r) = d.
Proof. done. Qed.

(** ** The per-entity branch, by what it reads and writes *)

Lemma observe_frame post now num nd st :
  notify_tracker (observe post now num nd st).1 = notify_tracker st
  ∧ app_settings (observe post now num nd st).1 = app_settings st
  ∧ tracked_classes (observe post now num nd st).1 = <[num := nd]> (tracked_classes st)
  ∧ (length (heap st) ≤ length (heap (observe post now num nd st).1))%nat.
Proof.
  unfold observe. simpl.
  destruct (notify_tracker st !! num) as [l|]; simpl;
    repeat case_decide; simpl;
    rewrite ?length_alter, ?length_app; simpl; repeat split; lia.
Qed.

Lemma observe_heap_other post now num nd st l' :
  (l' < length (heap st))%nat → notify_tracker st !! num ≠ Some l' →
  heap (observe post now num nd st).1 !! l' = heap st !! l'.
Proof.
  intros Hl' Hne. unfold observe. simpl.
  destruct (notify_tracker st !! num) as [l|]; simpl.
  - assert (l ≠ l') by congruence.
    repeat case_decide; simpl; rewrite ?list_lookup_alter_ne by done; done.
  - assert (length (heap st) ≠ l') by lia.
    repeat case_decide; simpl; rewrite ?list_lookup_alter_ne by done;
      by rewrite lookup_app_l.
Qed.

Lemma observe_stored post now num nd st l t :
  notify_tracker st !! num = Some l → heap st !! l = Some t →
  heap (observe post now num nd st).1 !! l = Some (edge_tracker now (status nd) t)
  ∧ (observe post now num nd st).2 = edge_out post st nd t
  ∧ length (heap (observe post now num nd st).1) = length (heap st).
Proof.
  intros Hk Hl. unfold observe, edge_tracker, edge_out. simpl. rewrite Hk. simpl.
  unfold tracker_at_loc. simpl. rewrite (list_lookup_total_correct _ _ _ Hl).
  repeat case_decide; simpl;
    rewrite ?length_alter, ?list_lookup_alter_eq, ?Hl; simpl;
    repeat split; try done;
    try (f_equal; apply send_notification_settings; done).
  all: unfold set_lastStatus, update_count_lastSent; simpl; congruence.
Qed.

Lemma observe_absent post now num nd st :
  notify_tracker st !! num = None →
  (observe post now num nd st).2 = edge_out post st nd fresh_tracker.
Proof.
  intros Hk. unfold observe, edge_out. simpl. rewrite Hk. simpl.
  unfold tracker_at_loc. simpl.
  rewrite lookup_total_app_r, Nat.sub_diag by done. simpl.
  repeat case_decide; simpl; try done;
    f_equal; apply send_notification_settings; done.
Qed.

Lemma observe_tracker_of post now num nd st k :
  wf st → k ≠ num →
  tracker_of (observe post now num nd st).1 k = tracker_of st k.
Proof.
  intros Hwf Hne. unfold tracker_of.
  destruct (observe_frame post now num nd st) as (-> & _).
  destruct (notify_tracker st !! k) as [l|] eqn:E; simpl; [|done].
  apply observe_heap_other; [by eapply wf_live|].
  intros E'. apply Hne. by eapply wf_unshared.
Qed.

Lemma observe_tracker_of_stored post now num nd st t :
  tracker_of st num = Some t →
  tracker_of (observe post now num nd st).1 num = Some (edge_tracker now (status nd) t).
Proof.
  unfold tracker_of at 1.
  destruct (notify_tracker st !! num) as [l|] eqn:E; simpl; [|done]. intros Hl.
  rewrite (tracker_of_stored _ _ l)
    by (by destruct (observe_frame post now num nd st) as (-> & _)).
  by destruct (observe_stored post now num nd st l t E Hl) as (-> & _).
Qed.

Lemma observe_tracker_of_absent post now num nd st :
  notify_tracker st !! num = None →
  tracker_of (observe post now num nd st).1 num = None.
Proof.
  intros E. apply tracker_of_absent.
  by destruct (observe_frame post now num nd st) as (-> & _).
Qed.

Lemma observe_wf post now num nd st :
  wf st → classNumber nd = num → wf (observe post now num nd st).1.
Proof.
  intros Hwf Hnum.
  destruct (observe_frame post now num nd st) as (Hn & _ & Ht & Hlen).
  split.
  - intros k l. rewrite Hn. intros Hk. pose proof (wf_live _ Hwf _ _ Hk). lia.
  - intros k1 k2 l. rewrite Hn. apply (wf_unshared _ Hwf).
  - intros k d. rewrite Ht. intros Hk.
    destruct (decide (num = k)) as [->|Hne].
    + rewrite lookup_insert_eq in Hk. congruence.
    + rewrite lookup_insert_ne in Hk by done. by eapply wf_keyed.
Qed.

(** X23. A stored tracker debounces: once [observe] has handled a status,
    the same status again sends nothing and leaves the tracker as it is, so
    the two observations send at most one notification. *)
Lemma observe_twice_stored post1 post2 t1 t2 num nd1 nd2 st t :
  tracker_of st num = Some t → status nd2 = status nd1 →
  let r1 := observe post1 t1 num nd1 st in
  let r2 := observe post2 t2 num nd2 r1.1 in
  r2.2 = [] ∧ tracker_of r2.1 num = tracker_of r1.1 num
  ∧ heap r2.1 = heap r1.1 ∧ notify_tracker r2.1 = notify_tracker r1.1
  ∧ (length (r1.2 ++ r2.2) ≤ 1)%nat.
Proof.
  intros Ht Hs r1 r2.
  pose proof (observe_tracker_of_stored post1 t1 num nd1 st t Ht) as H1.
  fold r1 in H1.
  assert (lastStatus (edge_tracker t1 (status nd1) t) = status nd1) as Hlast.
  { unfold edge_tracker. repeat case_decide; simpl; congruence. }
  unfold tracker_of in H1.
  destruct (notify_tracker r1.1 !! num) as [l|] eqn:El; simpl in H1; [|done].
  assert (r2 = (set_tracked num nd2 r1.1, [])) as ->.
  { subst r2. unfold observe. simpl. rewrite El. simpl.
    unfold tracker_at_loc. simpl. rewrite (list_lookup_total_correct _ _ _ H1).
    rewrite Hlast, Hs. by rewrite decide_True. }
  simpl. rewrite app_nil_r. repeat split; try done.
  subst r1. unfold tracker_of in Ht.
  destruct (notify_tracker st !! num) as [l0|] eqn:E0; simpl in Ht; [|done].
  destruct (observe_stored post1 t1 num nd1 st l0 t E0 Ht) as (_ & -> & _).
  unfold edge_out. repeat case_decide; simpl; lia.
Qed.

(** C2. A tracked class whose tracker holds a status other than OPEN (the
    initial FULL included) and that is observed OPEN gets exactly one
    notification, the seat-opened one, and its tracker is left with count 1,
    lastSent at the time of the observation and lastStatus OPEN. *)
Theorem rising_edge_fires_once post now num nd st t :
  tracker_of st num = Some t → lastStatus t ≠ "OPEN" → status nd = "OPEN" →
  (observe post now num nd st).2 = [send_notification post st nd "OPEN"]
  ∧ tracker_of (observe post now num nd st).1 num = Some (Tracker 1 now "OPEN").
Proof.
  intros Ht Hold Hnew.
  rewrite (observe_tracker_of_stored _ _ _ _ _ _ Ht).
  unfold tracker_of in Ht.
  destruct (notify_tracker st !! num) as [l|] eqn:E; simpl in Ht; [|done].
  destruct (observe_stored post now num nd st l t E Ht) as (_ & -> & _).
  unfold edge_out, edge_tracker. rewrite Hnew.
  repeat case_decide; simpl; try done; exfalso; auto.
Qed.

(** C3. A tracked class whose tracker holds OPEN and that is observed FULL
    gets exactly one notification, the seat-closed one, and its tracker is
    left with count 0 and lastStatus FULL (lastSent goes back to 0). *)
Theorem falling_edge_fires_once post now num nd st t :
  tracker_of st num = Some t → lastStatus t = "OPEN" → status nd = "FULL" →
  (observe post now num nd st).2 = [send_notification post st nd "FULL"]
  ∧ tracker_of (observe post now num nd st).1 num = Some (Tracker 0 0 "FULL").
Proof.
  intros Ht Hold Hnew.
  rewrite (observe_tracker_of_stored _ _ _ _ _ _ Ht).
  unfold tracker_of in Ht.
  destruct (notify_tracker st !! num) as [l|] eqn:E; simpl in Ht; [|done].
  destruct (observe_stored post now num nd st l t E Ht) as (_ & -> & _).
  unfold edge_out, edge_tracker. rewrite Hnew, Hold.
  repeat case_decide; simpl; try done; exfalso; auto.
Qed.

(** ** Loops whose iterations work on distinct classes *)

Lemma about_app k out1 out2 : about k (out1 ++ out2) = about k out1 ++ about k out2.
Proof. apply filter_app. Qed.

Lemma emitted_app r k out1 out2 :
  emitted r k (out1 ++ out2) = emitted r k out1 ++ emitted r k out2.
Proof. apply filter_app. Qed.

Lemma about_all k out :
  (∀ n, n ∈ out → classNumber (class_details n) = k) → about k out = out.
Proof.
  induction out as [|n out IH]; intros H; [done|].
  unfold about in *. rewrite filter_cons_True by (apply H; left).
  f_equal. apply IH. intros n' Hn'. apply H. by right.
Qed.

Lemma about_none k out :
  (∀ n, n ∈ out → classNumber (class_details n) ≠ k) → about k out = [].
Proof.
  induction out as [|n out IH]; intros H; [done|].
  unfold about in *. rewrite filter_cons_False by (apply H; left).
  apply IH. intros n' Hn'. apply H. by right.
Qed.

Lemma emitted_about r k out :
  emitted r k out = filter (λ n, reason n = r) (about k out).
Proof.
  induction out as [|n out IH]; [done|].
  unfold emitted, about in *. rewrite !filter_cons.
  destruct (decide (classNumber (class_details n) = k)) as [Hk|Hk].
  - rewrite filter_cons. destruct (decide (reason n = r)) as [Hr|Hr].
    + rewrite decide_True by done. by rewrite IH.
    + rewrite decide_False by tauto. done.
  - rewrite decide_False by tauto. done.
Qed.

Section keyed_loop.
Context {A : Type} (key : A → string).
Context (pre : A → option details * option loc * option tracker → Prop).
Context (body : A → state → state * list notification).

Hypothesis body_frame : ∀ x st,
  wf st → pre x (view st (key x)) →
  wf (body x st).1
  ∧ app_settings (body x st).1 = app_settings st
  ∧ (∀ k, k ≠ key x → view (body x st).1 k = view st k)
  ∧ (∀ n, n ∈ (body x st).2 → classNumber (class_details n) = key x).

Hypothesis body_local : ∀ x st1 st2,
  wf st1 → wf st2 → pre x (view st1 (key x)) →
  app_settings st1 = app_settings st2 →
  view st1 (key x) = view st2 (key x) →
  view (body x st1).1 (key x) = view (body x st2).1 (key x)
  ∧ (body x st1).2 = (body x st2).2.

Lemma for_each_keyed xs st :
  wf st → NoDup (key <$> xs) → (∀ x, x ∈ xs → pre x (view st (key x))) →
  wf (for_each body xs st).1
  ∧ app_settings (for_each body xs st).1 = app_settings st
  ∧ (∀ x, x ∈ xs →
       view (for_each body xs st).1 (key x) = view (body x st).1 (key x)
       ∧ about (key x) (for_each body xs st).2 = (body x st).2)
  ∧ (∀ k, k ∉ key <$> xs →
       view (for_each body xs st).1 k = view st k
       ∧ about k (for_each body xs st).2 = []).
Proof.
  revert st. induction xs as [|x xs IH]; intros st Hwf Hnd Hpre.
  { simpl. split; [done|]. split; [done|]. split; [|done].
    intros x Hx. by apply elem_of_nil in Hx. }
  rewrite fmap_cons in Hnd. apply NoDup_cons in Hnd as [Hx Hnd].
  destruct (body_frame x st Hwf) as (Hwf1 & Hs1 & Hv1 & Ho1).
  { apply Hpre. left. }
  assert (∀ y, y ∈ xs → key y ≠ key x) as Hne.
  { intros y Hy E. apply Hx. rewrite <- E. by apply list_elem_of_fmap_2. }
  destruct (IH (body x st).1 Hwf1 Hnd) as (Hwf2 & Hs2 & Hin & Hout).
  { intros y Hy. rewrite Hv1 by (by apply Hne). apply Hpre. by right. }
  simpl. destruct (body x st) as [st1 out1] eqn:E1. simpl in *.
  destruct (for_each body xs st1) as [st2 out2] eqn:E2. simpl in *.
  split; [done|]. split; [congruence|]. split.
  - intros y Hy. apply elem_of_cons in Hy as [->|Hy].
    + destruct (Hout (key x) Hx) as [-> Hab]. rewrite E1. simpl.
      split; [done|]. rewrite about_app, Hab, app_nil_r. by apply about_all.
    + destruct (Hin y Hy) as [-> Hab].
      assert (pre y (view st1 (key y))) as Hpy.
      { rewrite Hv1 by (by apply Hne). apply Hpre. by right. }
      destruct (body_local y st1 st Hwf1 Hwf Hpy Hs1 (Hv1 _ (Hne y Hy)))
        as [-> Ho].
      split; [done|]. rewrite about_app, Hab, Ho.
      rewrite about_none; [done|]. intros n Hn. rewrite (Ho1 n Hn).
      intros E. by apply (Hne y).
  - intros k Hk. apply not_elem_of_cons in Hk as [Hkx Hk].
    destruct (Hout k Hk) as [-> Hab]. split; [by apply Hv1|].
    rewrite about_app, Hab, app_nil_r. apply about_none.
    intros n Hn. rewrite (Ho1 n Hn). congruence.
Qed.
End keyed_loop.

Lemma mutate_wf l f st : wf st → wf (mutate l f st).
Proof.
  intros [H1 H2 H3]. split; simpl; [|done|done].
  intros k l' Hk. rewrite length_alter. by eapply H1.
Qed.

Lemma view_mutate_eq st k l f :
  notify_tracker st !! k = Some l →
  view (mutate l f st) k = (tracked_classes st !! k, Some l, f <$> tracker_of st k).
Proof.
  intros H. unfold view. rewrite (tracker_of_mutate_eq _ _ _ _ H). simpl. by rewrite H.
Qed.

Lemma view_mutate_ne st k k' l f :
  wf st → notify_tracker st !! k = Some l → k' ≠ k →
  view (mutate l f st) k' = view st k'.
Proof.
  intros Hwf H Hne. unfold view. rewrite tracker_of_mutate_ne; [done|].
  intros H'. apply Hne. by eapply wf_unshared.
Qed.

(** ** The reminder for one class, by what it reads and writes *)

Lemma remind_one_stored post now num l st d t :
  tracked_classes st !! num = Some d → heap st !! l = Some t →
  remind_one post now (num, l) st =
    if decide (status d = "OPEN" ∧ 0 < count t < MAX_NOTIFICATIONS
               ∧ now - lastSent t >= 3600000)
    then (mutate l (set_lastSent now) (mutate l incr_count st),
          [send_notification post st d "REMINDER"])
    else (st, []).
Proof.
  intros Hd Hl. unfold remind_one. rewrite Hd.
  rewrite (tracker_at_loc_stored _ _ _ Hl).
  change (NOTIFICATION_INTERVAL_HOURS * 60 * 60 * 1000) with 3600000.
  repeat case_decide; try done; tauto.
Qed.

Lemma remind_one_untracked post now num l st :
  tracked_classes st !! num = None → remind_one post now (num, l) st = (st, []).
Proof. intros Hd. unfold remind_one. by rewrite Hd. Qed.

Lemma remind_one_frame post now (x : string * loc) st :
  wf st → (view st x.1).1.2 = Some x.2 →
  wf (remind_one post now x st).1
  ∧ app_settings (remind_one post now x st).1 = app_settings st
  ∧ (∀ k, k ≠ x.1 → view (remind_one post now x st).1 k = view st k)
  ∧ (∀ n, n ∈ (remind_one post now x st).2 → classNumber (class_details n) = x.1).
Proof.
  destruct x as [num l]. cbn [fst snd]. intros Hwf Hk.
  change (notify_tracker st !! num = Some l) in Hk.
  destruct (wf_stored _ _ _ Hwf Hk) as [t Hl].
  destruct (tracked_classes st !! num) as [d|] eqn:Hd.
  - rewrite (remind_one_stored _ _ _ _ _ _ _ Hd Hl). case_decide; simpl.
    + split; [by do 2 apply mutate_wf|]. split; [done|]. split.
      * intros k Hne.
        rewrite (view_mutate_ne _ num k l); [|by apply mutate_wf|done|done].
        by apply (view_mutate_ne _ num).
      * intros n Hn. apply list_elem_of_singleton in Hn as ->. simpl.
        by eapply wf_keyed.
    + split; [done|]. split; [done|]. split; [done|].
      intros n Hn. by apply elem_of_nil in Hn.
  - rewrite remind_one_untracked by done. simpl.
    split; [done|]. split; [done|]. split; [done|].
    intros n Hn. by apply elem_of_nil in Hn.
Qed.

Lemma remind_one_local post now (x : string * loc) st1 st2 :
  wf st1 → wf st2 → (view st1 x.1).1.2 = Some x.2 →
  app_settings st1 = app_settings st2 →
  view st1 x.1 = view st2 x.1 →
  view (remind_one post now x st1).1 x.1 = view (remind_one post now x st2).1 x.1
  ∧ (remind_one post now x st1).2 = (remind_one post now x st2).2.
Proof.
  destruct x as [num l]. cbn [fst snd]. intros Hwf1 Hwf2 Hk1 Hs Hv.
  change (notify_tracker st1 !! num = Some l) in Hk1.
  assert (notify_tracker st2 !! num = Some l) as Hk2.
  { unfold view in Hv. congruence. }
  assert (tracked_classes st1 !! num = tracked_classes st2 !! num) as Hd.
  { unfold view in Hv. congruence. }
  assert (tracker_of st1 num = tracker_of st2 num) as Ht.
  { unfold view in Hv. congruence. }
  destruct (wf_stored _ _ _ Hwf1 Hk1) as [t Hl1].
  assert (heap st2 !! l = Some t) as Hl2.
  { rewrite <- (tracker_of_stored _ _ _ Hk2), <- Ht.
    by rewrite (tracker_of_stored _ _ _ Hk1). }
  destruct (tracked_classes st1 !! num) as [d|] eqn:Hd1; symmetry in Hd.
  - rewrite (remind_one_stored _ _ _ _ _ _ _ Hd1 Hl1).
    rewrite (remind_one_stored _ _ _ _ _ _ _ Hd Hl2).
    case_decide; simpl; [|done]. split.
    + rewrite !view_mutate_eq by done. simpl.
      rewrite !tracker_of_mutate_eq by done. by rewrite Hd1, Hd, Ht.
    + f_equal. apply send_notification_local; [|done].
      by rewrite (wf_keyed _ Hwf1 _ _ Hd1).
  - by rewrite !remind_one_untracked.
Qed.

(** The reminder job handles every class on its own. *)
Lemma hourly_reminder_check_keyed post now st :
  wf st →
  wf (hourly_reminder_check post now st).1
  ∧ app_settings (hourly_reminder_check post now st).1 = app_settings st
  ∧ (∀ k l, notify_tracker st !! k = Some l →
       view (hourly_reminder_check post now st).1 k
         = view (remind_one post now (k, l) st).1 k
       ∧ about k (hourly_reminder_check post now st).2
         = (remind_one post now (k, l) st).2)
  ∧ (∀ k, notify_tracker st !! k = None →
       view (hourly_reminder_check post now st).1 k = view st k
       ∧ about k (hourly_reminder_check post now st).2 = []).
Proof.
  intros Hwf. unfold hourly_reminder_check.
  destruct (for_each_keyed fst (λ x v, v.1.2 = Some x.2) (remind_one post now)
              (remind_one_frame post now) (remind_one_local post now)
              (map_to_list (notify_tracker st)) st Hwf)
    as (H1 & H2 & H3 & H4).
  { apply NoDup_fst_map_to_list. }
  { intros [k l] Hx. simpl. by apply elem_of_map_to_list in Hx. }
  split; [done|]. split; [done|]. split.
  - intros k l Hk. apply (H3 (k, l)). by apply elem_of_map_to_list.
  - intros k Hk. apply H4. intros Hin.
    apply list_elem_of_fmap in Hin as ([k' l] & -> & Hin).
    apply elem_of_map_to_list in Hin. simpl in Hk. congruence.
Qed.

(** What one run of the reminder job does for class [num]. *)
Lemma hourly_reminder_check_class post now st num :
  wf st →
  match tracked_classes st !! num, tracker_of st num with
  | Some d, Some t =>
      if decide (status d = "OPEN" ∧ 0 < count t < MAX_NOTIFICATIONS
                 ∧ now - lastSent t >= 3600000)
      then about num (hourly_reminder_check post now st).2
             = [send_notification post st d "REMINDER"]
           ∧ tracker_of (hourly_reminder_check post now st).1 num
             = Some (Tracker (count t + 1) now (lastStatus t))
      else about num (hourly_reminder_check post now st).2 = []
           ∧ tracker_of (hourly_reminder_check post now st).1 num = Some t
  | _, _ =>
      about num (hourly_reminder_check post now st).2 = []
      ∧ tracker_of (hourly_reminder_check post now st).1 num = tracker_of st num
  end.
Proof.
  intros Hwf.
  destruct (hourly_reminder_check_keyed post now st Hwf) as (_ & _ & Hin & Hout).
  destruct (notify_tracker st !! num) as [l|] eqn:Hk.
  - destruct (Hin num l Hk) as [Hv Ha]. rewrite Ha.
    assert (tracker_of (hourly_reminder_check post now st).1 num
            = tracker_of (remind_one post now (num, l) st).1 num) as ->.
    { unfold view in Hv. congruence. }
    destruct (wf_stored _ _ _ Hwf Hk) as [t Hl].
    rewrite (tracker_of_stored _ _ _ Hk), Hl.
    destruct (tracked_classes st !! num) as [d|] eqn:Hd.
    + rewrite (remind_one_stored _ _ _ _ _ _ _ Hd Hl). case_decide; simpl.
      * split; [done|]. rewrite !tracker_of_mutate_eq by done.
        by rewrite (tracker_of_stored _ _ _ Hk), Hl.
      * by rewrite (tracker_of_stored _ _ _ Hk).
    + rewrite remind_one_untracked by done. simpl.
      by rewrite (tracker_of_stored _ _ _ Hk).
  - destruct (Hout num Hk) as [Hv Ha]. rewrite Ha.
    assert (tracker_of (hourly_reminder_check post now st).1 num
            = tracker_of st num) as ->.
    { unfold view in Hv. congruence. }
    rewrite (tracker_of_absent _ _ Hk). by destruct (tracked_classes st !! num).
Qed.

(** C4. One run of the reminder job sends a reminder for a class exactly
    when its snapshot is OPEN, its count is strictly between 0 and
    MAX_NOTIFICATIONS and at least an hour (3600000 ms) has passed since
    lastSent; the reminder then shows the count as it was before the
    increment, the count goes up by one and lastSent becomes the time of the
    run; otherwise nothing is sent for the class and its tracker stays as
    it was; in either case at most one reminder is sent for the class. *)
Theorem reminder_tick post now st num :
  wf st →
  (∀ d t,
     tracked_classes st !! num = Some d → tracker_of st num = Some t →
     status d = "OPEN" → 0 < count t < MAX_NOTIFICATIONS →
     now - lastSent t >= 3600000 →
     emitted "REMINDER" num (hourly_reminder_check post now st).2
       = [send_notification post st d "REMINDER"]
     ∧ message_of (send_notification post st d "REMINDER")
       = (if decide (ntfyTopic (app_settings st) = "") then None
          else Some (StillOpen (className d) num (count t) MAX_NOTIFICATIONS))
     ∧ tracker_of (hourly_reminder_check post now st).1 num
       = Some (Tracker (count t + 1) now (lastStatus t)))
  ∧ ((¬ ∃ d t,
        tracked_classes st !! num = Some d ∧ tracker_of st num = Some t
        ∧ status d = "OPEN" ∧ 0 < count t < MAX_NOTIFICATIONS
        ∧ now - lastSent t >= 3600000) →
     emitted "REMINDER" num (hourly_reminder_check post now st).2 = []
     ∧ tracker_of (hourly_reminder_check post now st).1 num = tracker_of st num)
  ∧ (length (emitted "REMINDER" num (hourly_reminder_check post now st).2) ≤ 1)%nat.
Proof.
  intros Hwf.
  pose proof (hourly_reminder_check_class post now st num Hwf) as H.
  rewrite emitted_about.
  split; [|split].
  - intros d t Hd Ht Hs Hc Hn. rewrite Hd, Ht in H.
    rewrite decide_True in H by done. destruct H as [-> ->].
    split; [done|]. split; [|done].
    unfold message_of, send_notification, render. simpl.
    rewrite (wf_keyed _ Hwf _ _ Hd), Ht. simpl.
    case_decide; [done|]. by destruct (post _).
  - intros Hno.
    destruct (tracked_classes st !! num) as [d|]; [|by destruct H as [-> ->]].
    destruct (tracker_of st num) as [t|]; [|by destruct H as [-> ->]].
    case_decide as Hdue; [|by destruct H as [-> ->]].
    exfalso. apply Hno. exists d, t. tauto.
  - destruct (tracked_classes st !! num) as [d|]; [|by destruct H as [-> _]; simpl; lia].
    destruct (tracker_of st num) as [t|]; [|by destruct H as [-> _]; simpl; lia].
    case_decide; destruct H as [-> _]; simpl; lia.
Qed.

(** ** The status check for one class of one group *)

Lemma fresh_details_map_keyed l k d :
  fresh_details_map l !! k = Some d → classNumber d = k ∧ d ∈ l.
Proof.
  unfold fresh_details_map.
  assert (∀ m : gmap string details,
    (∀ k d, m !! k = Some d → classNumber d = k ∧ d ∈ l) →
    ∀ l', l' ⊆ l →
    ∀ k d, foldl (λ m d, <[classNumber d := d]> m) m l' !! k = Some d →
      classNumber d = k ∧ d ∈ l) as H.
  { intros m Hm l'. revert m Hm.
    induction l' as [|x l' IH]; intros m Hm Hsub k' d'; simpl; [by apply Hm|].
    apply IH.
    - intros k0 d0. destruct (decide (classNumber x = k0)) as [<-|Hne].
      + rewrite lookup_insert_eq. intros [= <-]. split; [done|].
        apply Hsub. left.
      + rewrite lookup_insert_ne by done. apply Hm.
    - intros y Hy. apply Hsub. by right. }
  apply (H ∅); [|done].
  intros k0 d0. by rewrite lookup_empty.
Qed.

Lemma edge_out_settings post st1 st2 nd t :
  app_settings st1 = app_settings st2 →
  edge_out post st1 nd t = edge_out post st2 nd t.
Proof.
  intros Hs. unfold edge_out.
  repeat case_decide; try done; f_equal; by apply send_notification_settings.
Qed.

Lemma edge_out_details post st nd t n :
  n ∈ edge_out post st nd t → class_details n = nd ∧ reason n ≠ "REMINDER".
Proof.
  unfold edge_out. repeat case_decide; intros Hn;
    try (by apply elem_of_nil in Hn);
    apply list_elem_of_singleton in Hn as ->; done.
Qed.

Lemma check_task_settings fetch post time_ms term0 x st :
  app_settings (check_task fetch post time_ms term0 x st).1 = app_settings st.
Proof.
  unfold check_task, check_num.
  destruct (fresh_details_map _ !! _); [|done].
  by destruct (observe_frame post (time_ms x.2) x.2 d st) as (_ & -> & _).
Qed.

Lemma check_task_frame fetch post time_ms term0 (x : string * string) st :
  wf st → True →
  wf (check_task fetch post time_ms term0 x st).1
  ∧ app_settings (check_task fetch post time_ms term0 x st).1 = app_settings st
  ∧ (∀ k, k ≠ x.2 → view (check_task fetch post time_ms term0 x st).1 k = view st k)
  ∧ (∀ n, n ∈ (check_task fetch post time_ms term0 x st).2 →
       classNumber (class_details n) = x.2).
Proof.
  intros Hwf _. split; [|split; [apply check_task_settings|]].
  - unfold check_task, check_num.
    destruct (fresh_details_map _ !! _) as [nd|] eqn:E; [|done].
    apply observe_wf; [done|]. by apply fresh_details_map_keyed in E as [? _].
  - unfold check_task, check_num.
    destruct (fresh_details_map _ !! _) as [nd|] eqn:E.
    2:{ split; [done|]. intros n Hn. by apply elem_of_nil in Hn. }
    apply fresh_details_map_keyed in E as [Hnd _]. split.
    + intros k Hne. unfold view.
      rewrite observe_tracker_of by done.
      destruct (observe_frame post (time_ms x.2) x.2 nd st) as (-> & _ & -> & _).
      by rewrite lookup_insert_ne.
    + intros n Hn.
      destruct (notify_tracker st !! x.2) as [l|] eqn:Hk.
      * destruct (wf_stored _ _ _ Hwf Hk) as [t Hl].
        destruct (observe_stored post (time_ms x.2) x.2 nd st l t Hk Hl) as (_ & Ho & _).
        rewrite Ho in Hn. by apply edge_out_details in Hn as [-> _].
      * rewrite (observe_absent _ _ _ _ _ Hk) in Hn.
        by apply edge_out_details in Hn as [-> _].
Qed.

Lemma check_task_local fetch post time_ms term0 (x : string * string) st1 st2 :
  wf st1 → wf st2 → True →
  app_settings st1 = app_settings st2 →
  view st1 x.2 = view st2 x.2 →
  view (check_task fetch post time_ms term0 x st1).1 x.2
    = view (check_task fetch post time_ms term0 x st2).1 x.2
  ∧ (check_task fetch post time_ms term0 x st1).2
    = (check_task fetch post time_ms term0 x st2).2.
Proof.
  intros Hwf1 Hwf2 _ Hs Hv. unfold check_task, check_num.
  destruct (fresh_details_map _ !! _) as [nd|] eqn:E; [|done].
  assert (notify_tracker st1 !! x.2 = notify_tracker st2 !! x.2) as Hk.
  { unfold view in Hv. congruence. }
  assert (tracker_of st1 x.2 = tracker_of st2 x.2) as Ht.
  { unfold view in Hv. congruence. }
  unfold view.
  destruct (observe_frame post (time_ms x.2) x.2 nd st1) as (-> & _ & -> & _).
  destruct (observe_frame post (time_ms x.2) x.2 nd st2) as (-> & _ & -> & _).
  rewrite !lookup_insert_eq, Hk.
  destruct (notify_tracker st2 !! x.2) as [l|] eqn:Hk2.
  - destruct (wf_stored _ _ _ Hwf1 Hk) as [t Hl1].
    assert (tracker_of st1 x.2 = Some t) as Ht1.
    { by rewrite (tracker_of_stored _ _ _ Hk). }
    assert (tracker_of st2 x.2 = Some t) as Ht2 by congruence.
    rewrite (observe_tracker_of_stored _ _ _ _ _ _ Ht1).
    rewrite (observe_tracker_of_stored _ _ _ _ _ _ Ht2).
    split; [done|].
    rewrite (tracker_of_stored _ _ _ Hk2) in Ht2.
    destruct (observe_stored post (time_ms x.2) x.2 nd st1 l t Hk Hl1) as (_ & -> & _).
    destruct (observe_stored post (time_ms x.2) x.2 nd st2 l t Hk2 Ht2) as (_ & -> & _).
    by apply edge_out_settings.
  - rewrite !observe_tracker_of_absent by done. split; [done|].
    rewrite !observe_absent by done. by apply edge_out_settings.
Qed.

Lemma for_each_app {A} (body : A → state → state * list notification) xs ys st :
  for_each body (xs ++ ys) st =
    ((for_each body ys (for_each body xs st).1).1,
     (for_each body xs st).2 ++ (for_each body ys (for_each body xs st).1).2).
Proof.
  revert st. induction xs as [|x xs IH]; intros st; simpl.
  { by destruct (for_each body ys st). }
  destruct (body x st) as [st1 out1]. rewrite IH.
  destruct (for_each body xs st1) as [st2 out2]. simpl.
  by rewrite app_assoc.
Qed.

Lemma for_each_settings {A} (body : A → state → state * list notification) xs st :
  (∀ x st, app_settings (body x st).1 = app_settings st) →
  app_settings (for_each body xs st).1 = app_settings st.
Proof.
  intros Hb. revert st. induction xs as [|x xs IH]; intros st; simpl; [done|].
  specialize (Hb x st). destruct (body x st) as [st1 out1].
  specialize (IH st1). destruct (for_each body xs st1) as [st2 out2].
  simpl in *. congruence.
Qed.

Lemma for_each_fmap {A B} (f : A → B) (body : B → state → state * list notification)
    xs st :
  for_each body (f <$> xs) st = for_each (λ x, body (f x)) xs st.
Proof.
  revert st. induction xs as [|x xs IH]; intros st; simpl; [done|].
  destruct (body (f x) st) as [st1 out1]. by rewrite IH.
Qed.

(** The nested loops of lines 111-115 run the tasks one after the other. *)
Lemma for_each_check_group fetch post time_ms groups st :
  for_each (check_group fetch post time_ms) groups st
  = for_each (check_task fetch post time_ms (term (app_settings st)))
      (tasks_of groups) st.
Proof.
  revert st. induction groups as [|g groups IH]; intros st; [done|].
  unfold tasks_of. rewrite bind_cons. fold (tasks_of groups).
  rewrite for_each_app. simpl.
  assert (check_group fetch post time_ms g st
          = for_each (check_task fetch post time_ms (term (app_settings st)))
              ((λ num, (g.1, num)) <$> g.2) st) as Hg.
  { unfold check_group. by rewrite for_each_fmap. }
  rewrite Hg.
  destruct (for_each _ (_ <$> g.2) st) as [st1 out1] eqn:E1. simpl.
  rewrite IH.
  assert (app_settings st1 = app_settings st) as ->.
  { change st1 with (st1, out1).1. rewrite <- E1.
    apply for_each_settings. intros. apply check_task_settings. }
  by destruct (for_each _ (tasks_of groups) st1).
Qed.

(** ** The groups of line 109 *)

Lemma classes_fold_lookup (ds : list details) (acc : gmap string (list string)) cn :
  foldl (λ acc d, <[className d := default [] (acc !! className d) ++ [classNumber d]]> acc)
        acc ds !! cn
  = (if decide (classNumber <$> filter (λ d, className d = cn) ds = []) then acc !! cn
     else Some (default [] (acc !! cn)
                ++ (classNumber <$> filter (λ d, className d = cn) ds))).
Proof.
  revert acc. induction ds as [|d ds IH]; intros acc; simpl; [done|].
  rewrite IH. rewrite filter_cons.
  destruct (decide (className d = cn)) as [<-|Hne].
  - rewrite lookup_insert_eq, fmap_cons. simpl.
    case_decide as E; [by rewrite E|]. by rewrite <- app_assoc.
  - by rewrite lookup_insert_ne.
Qed.

Lemma classes_to_fetch_lookup tracked cn :
  classes_to_fetch tracked !! cn
  = (let nums := classNumber <$> filter (λ d, className d = cn)
                                   (snd <$> map_to_list tracked) in
     if decide (nums = []) then None else Some nums).
Proof.
  unfold classes_to_fetch. rewrite classes_fold_lookup, lookup_empty. done.
Qed.

Lemma elem_of_snapshots (tracked : gmap string details) d :
  d ∈ snd <$> map_to_list tracked ↔ ∃ k, tracked !! k = Some d.
Proof.
  rewrite list_elem_of_fmap. split.
  - intros ([k d'] & -> & H). exists k. by apply elem_of_map_to_list.
  - intros [k H]. exists (k, d). split; [done|]. by apply elem_of_map_to_list.
Qed.

Lemma elem_of_tasks_of groups cn k :
  (cn, k) ∈ tasks_of groups ↔ ∃ nums, (cn, nums) ∈ groups ∧ k ∈ nums.
Proof.
  unfold tasks_of. rewrite list_elem_of_bind. split.
  - intros ([cn' nums] & Hx & Hg). apply list_elem_of_fmap in Hx as (n & [= -> ->] & Hn).
    by exists nums.
  - intros (nums & Hg & Hk). exists (cn, nums). split; [|done].
    apply list_elem_of_fmap. by exists k.
Qed.

Section tasks.
Context (tracked : gmap string details).
Hypothesis keyed : ∀ k d, tracked !! k = Some d → classNumber d = k.

Lemma elem_of_tasks cn k :
  (cn, k) ∈ tasks_of (map_to_list (classes_to_fetch tracked))
  ↔ ∃ d, tracked !! k = Some d ∧ className d = cn.
Proof.
  rewrite elem_of_tasks_of. split.
  - intros (nums & Hg & Hk). apply elem_of_map_to_list in Hg.
    rewrite classes_to_fetch_lookup in Hg. simpl in Hg.
    case_decide; [done|]. injection Hg as <-.
    apply list_elem_of_fmap in Hk as (d & -> & Hd).
    apply list_elem_of_filter in Hd as [Hcn Hd].
    apply elem_of_snapshots in Hd as [k Hd].
    exists d. split; [|done]. by rewrite (keyed _ _ Hd).
  - intros (d & Hd & Hcn).
    assert (k ∈ classNumber <$> filter (λ d, className d = cn)
                                 (snd <$> map_to_list tracked)) as Hk.
    { apply list_elem_of_fmap. exists d. split; [by rewrite (keyed _ _ Hd)|].
      apply list_elem_of_filter. split; [done|].
      apply elem_of_snapshots. by exists k. }
    eexists. split; [|exact Hk].
    apply elem_of_map_to_list. rewrite classes_to_fetch_lookup. simpl.
    case_decide as E; [|done]. rewrite E in Hk. by apply elem_of_nil in Hk.
Qed.

Lemma NoDup_snapshots : NoDup (snd <$> map_to_list tracked).
Proof.
  apply NoDup_fmap_2_strong; [|apply NoDup_map_to_list].
  intros [k1 d1] [k2 d2] H1 H2. simpl. intros <-.
  apply elem_of_map_to_list in H1, H2.
  by rewrite <- (keyed _ _ H1), <- (keyed _ _ H2).
Qed.

Lemma NoDup_group cn :
  NoDup (classNumber <$> filter (λ d, className d = cn) (snd <$> map_to_list tracked)).
Proof.
  apply NoDup_fmap_2_strong; [|apply NoDup_filter, NoDup_snapshots].
  intros d1 d2 H1 H2 E.
  apply list_elem_of_filter in H1 as [_ H1]. apply list_elem_of_filter in H2 as [_ H2].
  apply elem_of_snapshots in H1 as [k1 H1]. apply elem_of_snapshots in H2 as [k2 H2].
  pose proof (keyed _ _ H1). pose proof (keyed _ _ H2).
  assert (k1 = k2) by congruence. congruence.
Qed.

Lemma NoDup_tasks :
  NoDup (snd <$> tasks_of (map_to_list (classes_to_fetch tracked))).
Proof.
  apply NoDup_fmap_2_strong.
  - intros [cn1 k1] [cn2 k2] H1 H2. simpl. intros <-.
    apply elem_of_tasks in H1 as (d1 & Hd1 & <-).
    apply elem_of_tasks in H2 as (d2 & Hd2 & <-).
    congruence.
  - unfold tasks_of. apply NoDup_bind; [| |apply NoDup_map_to_list].
    + intros [cn1 n1] [cn2 n2] [cn k] H1 H2 Hy1 Hy2.
      apply list_elem_of_fmap in Hy1 as (? & [= -> ->] & _).
      apply list_elem_of_fmap in Hy2 as (? & [= -> _] & _). simpl in *.
      apply elem_of_map_to_list in H1, H2. congruence.
    + intros [cn nums] Hg. simpl.
      apply NoDup_fmap_2_strong; [by intros ?? _ _ [=]|].
      apply elem_of_map_to_list in Hg.
      rewrite classes_to_fetch_lookup in Hg. simpl in Hg.
      case_decide; [done|]. injection Hg as <-. apply NoDup_group.
Qed.
End tasks.

(** The status check handles every tracked class on its own, with the
    fetch result of the class's group. *)
Lemma check_class_statuses_keyed fetch post time_ms st :
  wf st →
  wf (check_class_statuses fetch post time_ms st).1
  ∧ app_settings (check_class_statuses fetch post time_ms st).1 = app_settings st
  ∧ (∀ k d, tracked_classes st !! k = Some d →
       let fresh := fresh_details_map (fetch (className d) (term (app_settings st))) in
       view (check_class_statuses fetch post time_ms st).1 k
         = view (check_num post time_ms fresh k st).1 k
       ∧ about k (check_class_statuses fetch post time_ms st).2
         = (check_num post time_ms fresh k st).2)
  ∧ (∀ k, tracked_classes st !! k = None →
       view (check_class_statuses fetch post time_ms st).1 k = view st k
       ∧ about k (check_class_statuses fetch post time_ms st).2 = []).
Proof.
  intros Hwf. unfold check_class_statuses. case_decide as Hempty.
  { simpl. split; [done|]. split; [done|]. split; [|done].
    intros k d. by rewrite Hempty, lookup_empty. }
  rewrite for_each_check_group.
  pose proof (wf_keyed _ Hwf) as Hkeyed.
  destruct (for_each_keyed snd (λ _ _, True)
              (check_task fetch post time_ms (term (app_settings st)))
              (check_task_frame fetch post time_ms (term (app_settings st)))
              (check_task_local fetch post time_ms (term (app_settings st)))
              (tasks_of (map_to_list (classes_to_fetch (tracked_classes st)))) st Hwf)
    as (H1 & H2 & H3 & H4).
  { by apply NoDup_tasks. }
  { done. }
  split; [done|]. split; [done|]. split.
  - intros k d Hd. apply (H3 (className d, k)).
    apply elem_of_tasks; [done|]. by exists d.
  - intros k Hk. apply H4. intros Hin.
    apply list_elem_of_fmap in Hin as ([cn k'] & -> & Hin).
    apply elem_of_tasks in Hin as (d & Hd & _); [|done]. simpl in Hk. congruence.
Qed.

(** What one status check does to the tracker of class [k]: nothing, or
    what one observation of some fresh details does. *)
Lemma check_class_statuses_class fetch post time_ms st k :
  wf st →
  (tracker_of (check_class_statuses fetch post time_ms st).1 k = tracker_of st k
   ∧ about k (check_class_statuses fetch post time_ms st).2 = [])
  ∨ (∃ nd, classNumber nd = k
      ∧ about k (check_class_statuses fetch post time_ms st).2
        = edge_out post st nd (default fresh_tracker (tracker_of st k))
      ∧ tracker_of (check_class_statuses fetch post time_ms st).1 k
        = edge_tracker (time_ms k) (status nd) <$> tracker_of st k).
Proof.
  intros Hwf.
  destruct (check_class_statuses_keyed fetch post time_ms st Hwf) as (_ & _ & Hin & Hout).
  destruct (tracked_classes st !! k) as [d|] eqn:Hd.
  2:{ left. destruct (Hout k Hd) as [Hv Ha]. unfold view in Hv. split; congruence. }
  destruct (Hin k d Hd) as [Hv Ha]. simpl in Hv, Ha. rewrite Ha.
  assert (tracker_of (check_class_statuses fetch post time_ms st).1 k
          = tracker_of (check_num post time_ms
              (fresh_details_map (fetch (className d) (term (app_settings st)))) k st).1 k)
    as ->.
  { unfold view in Hv. congruence. }
  unfold check_num.
  destruct (fresh_details_map _ !! k) as [nd|] eqn:E; [|by left].
  right. exists nd. apply fresh_details_map_keyed in E as [Hnd _].
  split; [done|].
  destruct (notify_tracker st !! k) as [l|] eqn:Hk.
  - destruct (wf_stored _ _ _ Hwf Hk) as [t Hl].
    assert (tracker_of st k = Some t) as Ht by by rewrite (tracker_of_stored _ _ _ Hk).
    rewrite Ht. simpl. rewrite (observe_tracker_of_stored _ _ _ _ _ _ Ht).
    by destruct (observe_stored post (time_ms k) k nd st l t Hk Hl) as (_ & -> & _).
  - rewrite (tracker_of_absent _ _ Hk). simpl.
    rewrite observe_tracker_of_absent by done. by rewrite observe_absent.
Qed.

(** ** Counts along a run *)

Lemma reminders_left_nonneg st k : counts_in_range st → 0 ≤ reminders_left st k.
Proof.
  intros Hr. unfold reminders_left.
  destruct (tracker_of st k) as [t|] eqn:Ht; [|done].
  specialize (Hr k t Ht). case_decide; lia.
Qed.

Lemma check_class_statuses_budget fetch post time_ms st k :
  wf st → counts_in_range st →
  (∀ t, tracker_of (check_class_statuses fetch post time_ms st).1 k = Some t →
     0 ≤ count t ≤ MAX_NOTIFICATIONS)
  ∧ (emitted "OPEN" k (check_class_statuses fetch post time_ms st).2 = [] →
     Z.of_nat (length (emitted "REMINDER" k (check_class_statuses fetch post time_ms st).2))
       + reminders_left (check_class_statuses fetch post time_ms st).1 k
     ≤ reminders_left st k).
Proof.
  intros Hwf Hr. pose proof (reminders_left_nonneg st k Hr) as Hnn.
  unfold reminders_left in *. rewrite !emitted_about.
  destruct (check_class_statuses_class fetch post time_ms st k Hwf)
    as [[-> ->]|(nd & Hnd & -> & ->)].
  { split; [apply Hr|]. simpl. intros _. lia. }
  destruct (tracker_of st k) as [t|] eqn:Ht; simpl.
  2:{ split; [done|]. intros _. unfold edge_out.
      repeat case_decide; simpl; lia. }
  specialize (Hr k t Ht). unfold edge_tracker, edge_out.
  split.
  - intros t' [= <-]. repeat case_decide; simpl; unfold MAX_NOTIFICATIONS in *; lia.
  - repeat case_decide; simpl; try done; try lia; intros _; lia.
Qed.

Lemma hourly_reminder_check_budget post now st k :
  wf st → counts_in_range st →
  (∀ t, tracker_of (hourly_reminder_check post now st).1 k = Some t →
     0 ≤ count t ≤ MAX_NOTIFICATIONS)
  ∧ emitted "OPEN" k (hourly_reminder_check post now st).2 = []
  ∧ Z.of_nat (length (emitted "REMINDER" k (hourly_reminder_check post now st).2))
      + reminders_left (hourly_reminder_check post now st).1 k
    ≤ reminders_left st k.
Proof.
  intros Hwf Hr. pose proof (reminders_left_nonneg st k Hr) as Hnn.
  pose proof (hourly_reminder_check_class post now st k Hwf) as H.
  unfold reminders_left in *. rewrite !emitted_about.
  destruct (tracked_classes st !! k) as [d|].
  2:{ destruct H as [-> ->]. split; [apply Hr|]. simpl. split; [done|lia]. }
  destruct (tracker_of st k) as [t|] eqn:Ht.
  2:{ destruct H as [-> ->]. split; [done|]. simpl. split; [done|lia]. }
  specialize (Hr k t Ht). case_decide as Hdue; destruct H as [-> ->]; simpl.
  - split; [intros t' [= <-]; simpl; lia|]. split; [done|].
    rewrite !decide_True by lia. lia.
  - split; [by intros t' [= <-]|]. split; [done|lia].
Qed.

Lemma apply_op_wf o st : wf st → wf (apply_op o st).1.
Proof.
  intros Hwf. destruct o as [fetch post time_ms|post now]; simpl.
  - by destruct (check_class_statuses_keyed fetch post time_ms st Hwf) as (? & _).
  - by destruct (hourly_reminder_check_keyed post now st Hwf) as (? & _).
Qed.

Lemma apply_op_budget o st k :
  wf st → counts_in_range st →
  (∀ t, tracker_of (apply_op o st).1 k = Some t → 0 ≤ count t ≤ MAX_NOTIFICATIONS)
  ∧ (emitted "OPEN" k (apply_op o st).2 = [] →
     Z.of_nat (length (emitted "REMINDER" k (apply_op o st).2))
       + reminders_left (apply_op o st).1 k
     ≤ reminders_left st k).
Proof.
  intros Hwf Hr. destruct o as [fetch post time_ms|post now]; simpl.
  - by apply check_class_statuses_budget.
  - destruct (hourly_reminder_check_budget post now st k Hwf Hr) as (? & ? & ?).
    by split.
Qed.

Lemma run_budget ops st :
  wf st → counts_in_range st →
  wf (run ops st).1
  ∧ counts_in_range (run ops st).1
  ∧ ∀ k, emitted "OPEN" k (run ops st).2 = [] →
     Z.of_nat (length (emitted "REMINDER" k (run ops st).2))
       + reminders_left (run ops st).1 k
     ≤ reminders_left st k.
Proof.
  unfold run. revert st. induction ops as [|o ops IH]; intros st Hwf Hr.
  { simpl. split; [done|]. split; [done|]. intros k _. lia. }
  pose proof (apply_op_wf o st Hwf) as Hwf1.
  assert (counts_in_range (apply_op o st).1) as Hr1.
  { intros k t. by apply apply_op_budget. }
  pose proof (λ k, proj2 (apply_op_budget o st k Hwf Hr)) as Hb1.
  simpl. destruct (apply_op o st) as [st1 out1]. simpl in *.
  destruct (IH st1 Hwf1 Hr1) as (Hwf2 & Hr2 & Hb2).
  destruct (for_each apply_op ops st1) as [st2 out2]. simpl in *.
  split; [done|]. split; [done|].
  intros k. rewrite !emitted_app, length_app. intros Hopen.
  apply app_eq_nil in Hopen as [Ho1 Ho2].
  specialize (Hb1 k Ho1). specialize (Hb2 k Ho2). lia.
Qed.

(** C5. Along any sequence of status checks and reminder runs every stored
    count stays between 0 and MAX_NOTIFICATIONS, a count that has reached
    MAX_NOTIFICATIONS is never raised, and from the state an opening alert
    leaves (count 1), as long as no further opening alert is sent for the
    class, at most MAX_NOTIFICATIONS - 1 reminders are sent for it. *)
Theorem reminder_count_bounded ops st k :
  wf st → counts_in_range st →
  counts_in_range (run ops st).1
  ∧ (∀ t t', tracker_of st k = Some t → count t = MAX_NOTIFICATIONS →
       tracker_of (run ops st).1 k = Some t' → count t' ≤ count t)
  ∧ (∀ t, tracker_of st k = Some t → count t = 1 →
       emitted "OPEN" k (run ops st).2 = [] →
       Z.of_nat (length (emitted "REMINDER" k (run ops st).2)) ≤ MAX_NOTIFICATIONS - 1).
Proof.
  intros Hwf Hr. destruct (run_budget ops st Hwf Hr) as (_ & Hr' & Hb).
  split; [done|]. split.
  - intros t t' _ -> Ht'. by apply (Hr' k t').
  - intros t Ht Hc Hopen. specialize (Hb k Hopen).
    pose proof (reminders_left_nonneg _ k Hr') as Hnn.
    unfold reminders_left at 2 in Hb. rewrite Ht, Hc in Hb. simpl in Hb. lia.
Qed.

(** ** The immediate check *)

Lemma immediate_check_loop_find post now k l st :
  immediate_check_loop post now k l st =
    match list_find (λ x, classNumber x = k) l with
    | Some (_, fd) => immediate_check_match post now k fd st
    | None => (st, [])
    end.
Proof.
  induction l as [|x l IH]; simpl; [done|].
  case_decide; [done|]. rewrite IH.
  by destruct (list_find _ l) as [[? ?]|].
Qed.

Lemma immediate_check_match_tracker post now k fd st :
  tracked_classes (immediate_check_match post now k fd st).1 !! k = Some fd
  ∧ notify_tracker (immediate_check_match post now k fd st).1 !! k
    = Some (length (heap st))
  ∧ app_settings (immediate_check_match post now k fd st).1 = app_settings st
  ∧ (status fd = "OPEN" →
     (immediate_check_match post now k fd st).2 = [send_notification post st fd "OPEN"]
     ∧ tracker_of (immediate_check_match post now k fd st).1 k
       = Some (Tracker 1 now "OPEN"))
  ∧ (status fd ≠ "OPEN" →
     (immediate_check_match post now k fd st).2 = []
     ∧ tracker_of (immediate_check_match post now k fd st).1 k = Some fresh_tracker).
Proof.
  unfold immediate_check_match, tracker_of. case_decide; simpl;
    rewrite !lookup_insert_eq; simpl.
  - split; [done|]. split; [done|]. split; [done|]. split; [|done]. intros _.
    split; [f_equal; by apply send_notification_settings|].
    rewrite list_lookup_alter_eq, lookup_app_r, Nat.sub_diag by done. done.
  - split; [done|]. split; [done|]. split; [done|]. split; [done|]. intros _.
    split; [done|]. by rewrite lookup_app_r, Nat.sub_diag by done.
Qed.

Lemma wf_initial : wf initial_state.
Proof. split; simpl; intros *; by rewrite lookup_empty. Qed.

Lemma set_tracked_wf k d st : wf st → classNumber d = k → wf (set_tracked k d st).
Proof.
  intros [H1 H2 H3] Hk. split; simpl; [done|done|].
  intros k' d'. destruct (decide (k = k')) as [<-|Hne].
  - rewrite lookup_insert_eq. congruence.
  - rewrite lookup_insert_ne by done. apply H3.
Qed.

Lemma store_fresh_wf k t st :
  wf st → wf (set_notify k (alloc t st).1 (alloc t st).2).
Proof.
  intros [H1 H2 H3]. split; simpl; [| |done].
  - intros k' l. rewrite length_app. simpl.
    destruct (decide (k = k')) as [<-|Hne].
    + rewrite lookup_insert_eq. intros [= <-]. lia.
    + rewrite lookup_insert_ne by done. intros Hk. specialize (H1 _ _ Hk). lia.
  - intros k1 k2 l.
    destruct (decide (k = k1)) as [<-|Hne1]; destruct (decide (k = k2)) as [<-|Hne2];
      rewrite ?lookup_insert_eq, ?lookup_insert_ne by done; try done.
    + intros [= <-] Hk. specialize (H1 _ _ Hk). lia.
    + intros Hk [= <-]. specialize (H1 _ _ Hk). lia.
    + apply H2.
Qed.

Lemma immediate_check_match_wf post now k fd st :
  wf st → classNumber fd = k → wf (immediate_check_match post now k fd st).1.
Proof.
  intros Hwf Hk. unfold immediate_check_match.
  pose proof (store_fresh_wf k fresh_tracker _ (set_tracked_wf k fd st Hwf Hk)) as H.
  case_decide; simpl; [by apply mutate_wf|done].
Qed.

Lemma add_tracked_class_wf fetch post now cd st :
  wf st → wf (add_tracked_class fetch post now cd st).1.2.
Proof.
  intros Hwf. unfold add_tracked_class. case_decide; [done|].
  unfold perform_immediate_check. rewrite immediate_check_loop_find.
  pose proof (set_tracked_wf _ cd st Hwf eq_refl) as Hwf1.
  destruct (list_find _ _) as [[i fd]|] eqn:E; simpl.
  - apply list_find_Some in E as (_ & Hfd & _).
    pose proof (immediate_check_match_wf post now _ fd _ Hwf1 Hfd) as Hwf2.
    by destruct (immediate_check_match _ _ _ _ _).
  - done.
Qed.

Lemma delete_tracked_class_wf k st : wf st → wf (delete_tracked_class k st).
Proof.
  intros [H1 H2 H3]. split; simpl.
  - intros k' l Hk. apply lookup_delete_Some in Hk as [_ Hk]. by eapply H1.
  - intros k1 k2 l Hk1 Hk2.
    apply lookup_delete_Some in Hk1 as [_ Hk1].
    apply lookup_delete_Some in Hk2 as [_ Hk2]. by eapply H2.
  - intros k' d Hk. apply lookup_delete_Some in Hk as [_ Hk]. by eapply H3.
Qed.

Lemma counts_in_range_initial : counts_in_range initial_state.
Proof. intros k t. unfold tracker_of. simpl. by rewrite lookup_empty. Qed.

(** ** Failing deliveries *)

Lemma for_each_sink {A} (body1 body2 : A → state → state * list notification) xs st :
  (∀ x st, (body1 x st).1 = (body2 x st).1
           ∧ call <$> (body1 x st).2 = call <$> (body2 x st).2) →
  (for_each body1 xs st).1 = (for_each body2 xs st).1
  ∧ call <$> (for_each body1 xs st).2 = call <$> (for_each body2 xs st).2.
Proof.
  intros Hb. revert st. induction xs as [|x xs IH]; intros st; simpl; [done|].
  destruct (Hb x st) as [Hs Ho].
  destruct (body1 x st) as [st1 out1], (body2 x st) as [st1' out1']. simpl in *.
  subst st1'. destruct (IH st1) as [Hs2 Ho2].
  destruct (for_each body1 xs st1) as [st2 out2].
  destruct (for_each body2 xs st1) as [st2' out2']. simpl in *.
  split; [done|]. by rewrite !fmap_app, Ho, Ho2.
Qed.

Lemma observe_sink post1 post2 now num nd st :
  (observe post1 now num nd st).1 = (observe post2 now num nd st).1
  ∧ call <$> (observe post1 now num nd st).2 = call <$> (observe post2 now num nd st).2.
Proof.
  unfold observe.
  destruct (notify_tracker (set_tracked num nd st) !! num); simpl;
    repeat case_decide; done.
Qed.

Lemma check_group_sink fetch post1 post2 time_ms g st :
  (check_group fetch post1 time_ms g st).1 = (check_group fetch post2 time_ms g st).1
  ∧ call <$> (check_group fetch post1 time_ms g st).2
    = call <$> (check_group fetch post2 time_ms g st).2.
Proof.
  unfold check_group. apply for_each_sink. intros num st'. unfold check_num.
  destruct (fresh_details_map _ !! num); [apply observe_sink|done].
Qed.

Lemma remind_one_sink post1 post2 now x st :
  (remind_one post1 now x st).1 = (remind_one post2 now x st).1
  ∧ call <$> (remind_one post1 now x st).2 = call <$> (remind_one post2 now x st).2.
Proof.
  unfold remind_one. destruct x as [num l].
  destruct (tracked_classes st !! num); [|done]. repeat case_decide; done.
Qed.

Lemma perform_immediate_check_sink fetch post1 post2 now cd st :
  (perform_immediate_check fetch post1 now cd st).1
    = (perform_immediate_check fetch post2 now cd st).1
  ∧ call <$> (perform_immediate_check fetch post1 now cd st).2
    = call <$> (perform_immediate_check fetch post2 now cd st).2.
Proof.
  unfold perform_immediate_check. rewrite !immediate_check_loop_find.
  destruct (list_find _ _) as [[i fd]|]; [|done].
  unfold immediate_check_match. case_decide; done.
Qed.

(** C9. Whether the sink delivers or fails changes nothing in what the
    status check, the reminder run and the immediate check leave in the two
    dictionaries and in the trackers, nor which notifications they send; a
    delivery that raises is caught inside [send_notification], which
    returns with the error recorded. *)
Theorem delivery_failure_keeps_bookkeeping (post1 post2 : sink) :
  (∀ now num nd st,
     (observe post1 now num nd st).1 = (observe post2 now num nd st).1
     ∧ call <$> (observe post1 now num nd st).2 = call <$> (observe post2 now num nd st).2)
  ∧ (∀ fetch time_ms st,
     (check_class_statuses fetch post1 time_ms st).1
       = (check_class_statuses fetch post2 time_ms st).1
     ∧ call <$> (check_class_statuses fetch post1 time_ms st).2
       = call <$> (check_class_statuses fetch post2 time_ms st).2)
  ∧ (∀ now st,
     (hourly_reminder_check post1 now st).1 = (hourly_reminder_check post2 now st).1
     ∧ call <$> (hourly_reminder_check post1 now st).2
       = call <$> (hourly_reminder_check post2 now st).2)
  ∧ (∀ fetch now cd st,
     (add_tracked_class fetch post1 now cd st).1 = (add_tracked_class fetch post2 now cd st).1
     ∧ call <$> (add_tracked_class fetch post1 now cd st).2
       = call <$> (add_tracked_class fetch post2 now cd st).2)
  ∧ (∀ st d r m,
     ntfyTopic (app_settings st) ≠ "" → render st d r = Some m →
     post1 (Request (ntfyTopic (app_settings st)) m d) = false →
     send_notification post1 st d r
       = Notification r d (SendError (Request (ntfyTopic (app_settings st)) m d))).
Proof.
  split; [intros; apply observe_sink|].
  split; [|split; [|split]].
  - intros fetch time_ms st. unfold check_class_statuses. case_decide; [done|].
    apply for_each_sink. intros g st'. apply check_group_sink.
  - intros now st. unfold hourly_reminder_check.
    apply for_each_sink. intros x st'. apply remind_one_sink.
  - intros fetch now cd st. unfold add_tracked_class. case_decide; [done|].
    destruct (perform_immediate_check_sink fetch post1 post2 now cd
                (set_tracked (classNumber cd) cd st)) as [Hs Ho].
    destruct (perform_immediate_check fetch post1 _ _ _) as [st1 out1].
    destruct (perform_immediate_check fetch post2 _ _ _) as [st2 out2].
    simpl in *. by subst.
  - intros st d r m Htopic Hm Hpost. unfold send_notification.
    rewrite decide_False by done. by rewrite Hm, Hpost.
Qed.

(** ** The example states, and the defects they show *)

Lemma wf_st_unseen : wf st_unseen.
Proof. apply add_tracked_class_wf, wf_initial. Qed.

Lemma wf_st_full : wf st_full.
Proof. apply add_tracked_class_wf, wf_initial. Qed.

Lemma wf_st_open : wf st_open.
Proof. apply add_tracked_class_wf, wf_initial. Qed.

Lemma wf_st_two : wf st_two.
Proof. apply add_tracked_class_wf, wf_st_full. Qed.

Lemma counts_in_range_st_open : counts_in_range st_open.
Proof.
  intros k t. unfold tracker_of.
  assert (notify_tracker st_open = {["12345" := 0%nat]}) as -> by by vm_compute.
  destruct (decide (k = "12345")) as [->|Hne].
  - rewrite lookup_singleton_eq. vm_compute. intros [= <-]. simpl. split; discriminate.
  - by rewrite lookup_singleton_ne.
Qed.

(** C1. The debounce is lost for a class that has no stored tracker: added
    while the source had nothing on it, then observed OPEN twice, the class
    gets the seat-opened notification both times. *)
Theorem debounce_lost_without_tracker :
  let r1 := observe delivers 1000 "12345" (cse110 "OPEN") st_unseen in
  let r2 := observe delivers 2000 "12345" (cse110 "OPEN") r1.1 in
  tracker_of st_unseen "12345" = None
  ∧ call <$> r1.2 = [("OPEN", cse110 "OPEN")]
  ∧ call <$> r2.2 = [("OPEN", cse110 "OPEN")]
  ∧ tracker_of r2.1 "12345" = None.
Proof. by vm_compute. Qed.

(** C6. An observation of a class without a stored tracker does not put one
    in [notify_tracker]: the default tracker is updated outside the
    dictionary, the dictionary stays empty, and a reminder run an hour later
    finds nothing to remind of. *)
Theorem default_tracker_not_stored :
  let r := check_class_statuses (cse110_only "OPEN") delivers (λ _, 1000) st_unseen in
  notify_tracker st_unseen !! "12345" = None
  ∧ notify_tracker r.1 !! "12345" = None
  ∧ tracker_of r.1 "12345" = None
  ∧ heap r.1 = [Tracker 1 1000 "OPEN"]
  ∧ call <$> r.2 = [("OPEN", cse110 "OPEN")]
  ∧ (hourly_reminder_check delivers (1000 + 3600000) r.1).2 = [].
Proof. by vm_compute. Qed.

(** C8. The immediate check of a class that the fetch result does not
    contain creates no tracker: the class is tracked, and [notify_tracker]
    has no entry for it. *)
Theorem immediate_check_not_found_creates_nothing :
  let r := add_tracked_class no_data delivers 0 (cse110 "FULL") initial_state in
  r.1.1 = Created [cse110 "FULL"]
  ∧ tracked_classes r.1.2 !! "12345" = Some (cse110 "FULL")
  ∧ notify_tracker r.1.2 !! "12345" = None
  ∧ heap r.1.2 = []
  ∧ r.2 = [].
Proof. by vm_compute. Qed.

(** The immediate check leaves the state alone when the fetch result does
    not contain the class. *)
Lemma perform_immediate_check_not_found fetch post now cd st :
  Forall (λ x, classNumber x ≠ classNumber cd)
         (fetch (className cd) (term (app_settings st))) →
  perform_immediate_check fetch post now cd st = (st, []).
Proof.
  intros H. unfold perform_immediate_check. rewrite immediate_check_loop_find.
  apply (list_find_None (λ x, classNumber x = classNumber cd)) in H.
  by rewrite H.
Qed.

(** C10, as stated, fails: a class that is re-added while the fetch result
    does not contain it keeps the tracker it had (here the one of an open
    streak), and nothing is sent. *)
Lemma readd_not_found_keeps_tracker :
  let r := add_tracked_class no_data delivers 5000 (cse110 "OPEN") st_open in
  tracker_of st_open "12345" = Some (Tracker 1 1000 "OPEN")
  ∧ tracker_of r.1.2 "12345" = Some (Tracker 1 1000 "OPEN")
  ∧ tracker_of r.1.2 "12345" ≠ Some fresh_tracker
  ∧ r.2 = [].
Proof. by vm_compute. Qed.

(** C10, amended. Re-adding a class that the immediate fetch result
    contains puts a new tracker in its place, whatever the old one held: when
    the fresh status is OPEN exactly one seat-opened notification is sent and
    the tracker is left with count 1, lastSent now and lastStatus OPEN, also
    when the old tracker already held OPEN; otherwise nothing is sent and
    the tracker holds the initial values. *)
Theorem readd_resets_tracker fetch post now cd st i fd :
  classNumber cd ≠ "" →
  list_find (λ x, classNumber x = classNumber cd)
            (fetch (className cd) (term (app_settings st))) = Some (i, fd) →
  let r := add_tracked_class fetch post now cd st in
  tracked_classes r.1.2 !! classNumber cd = Some fd
  ∧ notify_tracker r.1.2 !! classNumber cd = Some (length (heap st))
  ∧ (status fd = "OPEN" →
     r.2 = [send_notification post st fd "OPEN"]
     ∧ tracker_of r.1.2 (classNumber cd) = Some (Tracker 1 now "OPEN"))
  ∧ (status fd ≠ "OPEN" →
     r.2 = [] ∧ tracker_of r.1.2 (classNumber cd) = Some fresh_tracker).
Proof.
  intros Hne Hfind. unfold add_tracked_class. rewrite decide_False by done.
  unfold perform_immediate_check. rewrite immediate_check_loop_find. simpl.
  rewrite Hfind.
  destruct (immediate_check_match_tracker post now (classNumber cd) fd
              (set_tracked (classNumber cd) cd st)) as (H1 & H2 & _ & H4 & H5).
  destruct (immediate_check_match _ _ _ _ _) as [st1 out1]. simpl in *.
  split; [done|]. split; [done|]. split.
  - intros Ho. by destruct (H4 Ho) as [-> ->].
  - intros Ho. by destruct (H5 Ho) as [-> ->].
Qed.

(** ** The theorems at work on the example *)

Lemma rising_edge_fires_once_witness :
  tracker_of st_full "12345" = Some fresh_tracker
  ∧ lastStatus fresh_tracker ≠ "OPEN"
  ∧ status (cse110 "OPEN") = "OPEN"
  ∧ (observe delivers 1000 "12345" (cse110 "OPEN") st_full).2
    = [send_notification delivers st_full (cse110 "OPEN") "OPEN"]
  ∧ tracker_of (observe delivers 1000 "12345" (cse110 "OPEN") st_full).1 "12345"
    = Some (Tracker 1 1000 "OPEN").
Proof.
  assert (tracker_of st_full "12345" = Some fresh_tracker) as H1
    by (vm_compute; reflexivity).
  assert (lastStatus fresh_tracker ≠ "OPEN") as H2 by discriminate.
  split; [exact H1|]. split; [exact H2|]. split; [reflexivity|].
  exact (rising_edge_fires_once delivers 1000 "12345" (cse110 "OPEN") st_full
           fresh_tracker H1 H2 eq_refl).
Defined.

Lemma falling_edge_fires_once_witness :
  tracker_of st_open "12345" = Some (Tracker 1 1000 "OPEN")
  ∧ lastStatus (Tracker 1 1000 "OPEN") = "OPEN"
  ∧ status (cse110 "FULL") = "FULL"
  ∧ (observe delivers 2000 "12345" (cse110 "FULL") st_open).2
    = [send_notification delivers st_open (cse110 "FULL") "FULL"]
  ∧ tracker_of (observe delivers 2000 "12345" (cse110 "FULL") st_open).1 "12345"
    = Some (Tracker 0 0 "FULL").
Proof.
  assert (tracker_of st_open "12345" = Some (Tracker 1 1000 "OPEN")) as H1
    by (vm_compute; reflexivity).
  split; [exact H1|]. split; [reflexivity|]. split; [reflexivity|].
  exact (falling_edge_fires_once delivers 2000 "12345" (cse110 "FULL") st_open
           (Tracker 1 1000 "OPEN") H1 eq_refl eq_refl).
Defined.

Lemma reminder_tick_witness :
  wf st_open
  ∧ emitted "REMINDER" "12345" (hourly_reminder_check delivers 3601000 st_open).2
    = [send_notification delivers st_open (cse110 "OPEN") "REMINDER"]
  ∧ message_of (send_notification delivers st_open (cse110 "OPEN") "REMINDER")
    = Some (StillOpen "CSE 110" "12345" 1 MAX_NOTIFICATIONS)
  ∧ tracker_of (hourly_reminder_check delivers 3601000 st_open).1 "12345"
    = Some (Tracker 2 3601000 "OPEN").
Proof.
  split; [exact wf_st_open|].
  assert (tracked_classes st_open !! "12345" = Some (cse110 "OPEN")) as Hd
    by (vm_compute; reflexivity).
  assert (tracker_of st_open "12345" = Some (Tracker 1 1000 "OPEN")) as Ht
    by (vm_compute; reflexivity).
  assert (0 < count (Tracker 1 1000 "OPEN") < MAX_NOTIFICATIONS) as Hc
    by (vm_compute; split; reflexivity).
  assert (3601000 - lastSent (Tracker 1 1000 "OPEN") >= 3600000) as Hn
    by (vm_compute; discriminate).
  exact (proj1 (reminder_tick delivers 3601000 st_open "12345" wf_st_open)
           (cse110 "OPEN") (Tracker 1 1000 "OPEN") Hd Ht eq_refl Hc Hn).
Defined.

Lemma reminder_count_bounded_witness :
  let ops := [Tick delivers 3601000;
              Observe (cse110_only "OPEN") delivers (λ _, 3700000);
              Tick delivers 7202000] in
  wf st_open ∧ counts_in_range st_open
  ∧ counts_in_range (run ops st_open).1
  ∧ Z.of_nat (length (emitted "REMINDER" "12345" (run ops st_open).2))
    ≤ MAX_NOTIFICATIONS - 1.
Proof.
  intros ops. split; [exact wf_st_open|]. split; [exact counts_in_range_st_open|].
  pose proof (reminder_count_bounded ops st_open "12345"
                wf_st_open counts_in_range_st_open) as (H1 & _ & H3).
  split; [exact H1|].
  apply (H3 (Tracker 1 1000 "OPEN")); vm_compute; reflexivity.
Defined.

Lemma delivery_failure_keeps_bookkeeping_witness :
  ntfyTopic (app_settings st_full) ≠ ""
  ∧ render st_full (cse110 "OPEN") "OPEN" = Some (SeatOpen "CSE 110" "12345")
  ∧ (observe raises 1000 "12345" (cse110 "OPEN") st_full).1
    = (observe delivers 1000 "12345" (cse110 "OPEN") st_full).1
  ∧ send_notification raises st_full (cse110 "OPEN") "OPEN"
    = Notification "OPEN" (cse110 "OPEN")
        (SendError (Request "susumaanclassalerts" (SeatOpen "CSE 110" "12345")
                      (cse110 "OPEN"))).
Proof.
  assert (ntfyTopic (app_settings st_full) ≠ "") as H1 by discriminate.
  pose proof (delivery_failure_keeps_bookkeeping raises delivers)
    as (Hobs & _ & _ & _ & Hsend).
  split; [exact H1|]. split; [reflexivity|].
  split; [exact (proj1 (Hobs 1000 "12345" (cse110 "OPEN") st_full))|].
  exact (Hsend st_full (cse110 "OPEN") "OPEN" (SeatOpen "CSE 110" "12345")
           H1 eq_refl eq_refl).
Defined.

Lemma readd_resets_tracker_witness :
  let r := add_tracked_class (cse110_only "OPEN") delivers 5000 (cse110 "OPEN") st_open in
  classNumber (cse110 "OPEN") ≠ ""
  ∧ list_find (λ x, classNumber x = "12345")
      (cse110_only "OPEN" "CSE 110" (term (app_settings st_open)))
    = Some (0%nat, cse110 "OPEN")
  ∧ tracker_of st_open "12345" = Some (Tracker 1 1000 "OPEN")
  ∧ r.2 = [send_notification delivers st_open (cse110 "OPEN") "OPEN"]
  ∧ tracker_of r.1.2 "12345" = Some (Tracker 1 5000 "OPEN").
Proof.
  intros r.
  assert (classNumber (cse110 "OPEN") ≠ "") as H1 by discriminate.
  assert (list_find (λ x, classNumber x = classNumber (cse110 "OPEN"))
            (cse110_only "OPEN" (className (cse110 "OPEN")) (term (app_settings st_open)))
          = Some (0%nat, cse110 "OPEN")) as H2 by reflexivity.
  split; [exact H1|]. split; [exact H2|]. split; [vm_compute; reflexivity|].
  pose proof (readd_resets_tracker (cse110_only "OPEN") delivers 5000 (cse110 "OPEN")
                st_open 0%nat (cse110 "OPEN") H1 H2) as (_ & _ & H3 & _).
  exact (H3 eq_refl).
Defined.

(** ** Reachable states *)

Lemma update_settings_wf new_term new_topic st :
  wf st → wf (update_settings new_term new_topic st).
Proof.
  intros Hwf. unfold update_settings.
  assert (wf (match new_term with
              | Some t =>
                  if decide (t ≠ term (app_settings st)) then
                    State ∅ ∅ (heap st) (Settings t (ntfyTopic (app_settings st)))
                  else st
              | None => st
              end)) as [H1 H2 H3].
  { destruct new_term as [t|]; [|done]. case_decide; [|done].
    split; simpl; intros *; by rewrite lookup_empty. }
  destruct new_topic; by split.
Qed.

Lemma update_settings_counts new_term new_topic st :
  counts_in_range st → counts_in_range (update_settings new_term new_topic st).
Proof.
  intros Hr k t. unfold update_settings, tracker_of.
  destruct new_term as [t'|]; [case_decide|]; destruct new_topic; simpl;
    rewrite ?lookup_empty; try done; apply Hr.
Qed.

Lemma delete_tracked_class_counts k st :
  counts_in_range st → counts_in_range (delete_tracked_class k st).
Proof.
  intros Hr k' t. unfold tracker_of. simpl.
  destruct (decide (k = k')) as [<-|Hne].
  - by rewrite lookup_delete_eq.
  - rewrite lookup_delete_ne by done. apply Hr.
Qed.

Lemma immediate_check_match_other post now k fd st k' :
  wf st → k' ≠ k →
  tracker_of (immediate_check_match post now k fd st).1 k' = tracker_of st k'.
Proof.
  intros Hwf Hne. unfold immediate_check_match, tracker_of.
  case_decide; simpl; rewrite lookup_insert_ne by done;
    destruct (notify_tracker st !! k') as [l|] eqn:Hk; simpl; try done;
    pose proof (wf_live _ Hwf _ _ Hk).
  - rewrite list_lookup_alter_ne by lia. by apply lookup_app_l.
  - by apply lookup_app_l.
Qed.

Lemma add_tracked_class_counts fetch post now cd st :
  wf st → counts_in_range st →
  counts_in_range (add_tracked_class fetch post now cd st).1.2.
Proof.
  intros Hwf Hr. unfold add_tracked_class. case_decide; [done|].
  unfold perform_immediate_check. rewrite immediate_check_loop_find.
  pose proof (set_tracked_wf _ cd st Hwf eq_refl) as Hwf1.
  destruct (list_find _ _) as [[i fd]|] eqn:E; simpl; [|done].
  intros k t.
  destruct (immediate_check_match_tracker post now (classNumber cd) fd
              (set_tracked (classNumber cd) cd st)) as (_ & _ & _ & H4 & H5).
  pose proof (immediate_check_match_other post now (classNumber cd) fd
                (set_tracked (classNumber cd) cd st) k Hwf1) as Hother.
  destruct (immediate_check_match _ _ _ _ _) as [st1 out1]. simpl in *.
  destruct (decide (k = classNumber cd)) as [->|Hne].
  - destruct (decide (status fd = "OPEN")) as [Ho|Ho].
    + destruct (H4 Ho) as [_ ->]. intros [= <-]. done.
    + destruct (H5 Ho) as [_ ->]. intros [= <-]. done.
  - rewrite Hother by done. apply Hr.
Qed.

(** X22. Every state the service reaches from the initial one, by settings
    updates, additions, removals, status checks and reminder runs, is well
    formed (every stored reference points to a tracker, no tracker is stored
    under two class numbers, every snapshot is filed under its own number)
    and has its counts between 0 and [MAX_NOTIFICATIONS]. *)
Lemma reachable_wf st : reachable st → wf st ∧ counts_in_range st.
Proof.
  induction 1 as [|nt ntp st _ [Hwf Hr]|fetch post now cd st _ [Hwf Hr]
                  |k st _ [Hwf Hr]|fetch post time_ms st _ [Hwf Hr]
                  |post now st _ [Hwf Hr]].
  - split; [apply wf_initial|apply counts_in_range_initial].
  - split; [by apply update_settings_wf|by apply update_settings_counts].
  - split; [by apply add_tracked_class_wf|by apply add_tracked_class_counts].
  - split; [by apply delete_tracked_class_wf|by apply delete_tracked_class_counts].
  - destruct (run_budget [Observe fetch post time_ms] st Hwf Hr) as (H1 & H2 & _).
    unfold run in H1, H2. simpl in H1, H2.
    destruct (check_class_statuses fetch post time_ms st). by split.
  - destruct (run_budget [Tick post now] st Hwf Hr) as (H1 & H2 & _).
    unfold run in H1, H2. simpl in H1, H2.
    destruct (hourly_reminder_check post now st). by split.
Qed.

(** ** The term name *)

Lemma digit_cases (a : Z) :
  0 ≤ a ≤ 9 →
  a = 0 ∨ a = 1 ∨ a = 2 ∨ a = 3 ∨ a = 4 ∨ a = 5 ∨ a = 6 ∨ a = 7 ∨ a = 8 ∨ a = 9.
Proof. lia. Qed.

Lemma decimal_reads_decimals : reads_decimals decimal.
Proof.
  intros a b Ha Hb.
  destruct (digit_cases a Ha) as [->|[->|[->|[->|[->|[->|[->|[->|[->| ->]]]]]]]]];
    destruct (digit_cases b Hb) as [->|[->|[->|[->|[->|[->|[->|[->|[->| ->]]]]]]]]];
    reflexivity.
Qed.

(** X1. A code that is not four characters long has the name "Unknown
    Term" and [int] is not called.  A four-character code whose two middle
    characters [int] rejects raises, whatever its first and last characters
    are.  With two decimal digits in the middle, the name is Spring, Summer
    or Fall of the year 2000 plus the two-digit number when the last
    character is 1, 4 or 7, and "Unknown Term" otherwise; the first character
    plays no role. *)
Theorem get_term_name_cases (int : string → option Z) :
  (∀ s, String.length s ≠ 4%nat → get_term_name int s = Returns "Unknown Term")
  ∧ (∀ c0 c1 c2 c3,
       int (String c1 (String c2 EmptyString)) = None →
       get_term_name int (String c0 (String c1 (String c2 (String c3 EmptyString))))
         = ValueError)
  ∧ (reads_decimals int →
     ∀ c0 a b c3, 0 ≤ a ≤ 9 → 0 ≤ b ≤ 9 →
       get_term_name int
         (String c0 (String (digit a) (String (digit b) (String c3 EmptyString))))
       = Returns (if decide (c3 = "1"%char) then "Spring " +:+ pretty (2000 + (10 * a + b))
                  else if decide (c3 = "4"%char) then "Summer " +:+ pretty (2000 + (10 * a + b))
                  else if decide (c3 = "7"%char) then "Fall " +:+ pretty (2000 + (10 * a + b))
                  else "Unknown Term")).
Proof.
  split; [|split].
  - intros s Hlen. destruct s as [|c0 [|c1 [|c2 [|c3 [|c4 s]]]]]; try done.
  - intros c0 c1 c2 c3 Hint. unfold get_term_name. by rewrite Hint.
  - intros Hint c0 a b c3 Ha Hb. unfold get_term_name.
    rewrite (Hint a b Ha Hb). by repeat case_decide.
Qed.

Lemma get_term_name_cases_witness :
  String.length "225" ≠ 4%nat
  ∧ get_term_name decimal "225" = Returns "Unknown Term"
  ∧ get_term_name decimal "2x57" = ValueError
  ∧ get_term_name decimal "2257" = Returns "Fall 2025"
  ∧ get_term_name decimal "9241" = Returns "Spring 2024".
Proof.
  destruct (get_term_name_cases decimal) as (H1 & H2 & H3).
  assert (String.length "225" ≠ 4%nat) as Hlen by discriminate.
  split; [exact Hlen|]. split; [exact (H1 "225" Hlen)|].
  split; [exact (H2 "2"%char "x"%char "5"%char "7"%char eq_refl)|].
  split.
  - exact (H3 decimal_reads_decimals "2"%char 2 5 "7"%char
             ltac:(lia) ltac:(lia)).
  - exact (H3 decimal_reads_decimals "9"%char 2 4 "1"%char
             ltac:(lia) ltac:(lia)).
Defined.

(** ** The settings *)

Lemma update_settings_term_changed t new_topic st :
  t ≠ term (app_settings st) →
  tracked_classes (update_settings (Some t) new_topic st) = ∅
  ∧ notify_tracker (update_settings (Some t) new_topic st) = ∅
  ∧ term (app_settings (update_settings (Some t) new_topic st)) = t.
Proof.
  intros Hne. unfold update_settings. rewrite decide_True by done.
  by destruct new_topic.
Qed.

(** X2. A request that changes the term empties both dictionaries, so the
    status check and the reminder run that follow send nothing and change
    nothing. *)
Theorem update_settings_new_term t new_topic st :
  t ≠ term (app_settings st) →
  tracked_classes (update_settings (Some t) new_topic st) = ∅
  ∧ notify_tracker (update_settings (Some t) new_topic st) = ∅
  ∧ term (app_settings (update_settings (Some t) new_topic st)) = t
  ∧ (∀ fetch post time_ms,
       check_class_statuses fetch post time_ms (update_settings (Some t) new_topic st)
       = (update_settings (Some t) new_topic st, []))
  ∧ (∀ post now,
       hourly_reminder_check post now (update_settings (Some t) new_topic st)
       = (update_settings (Some t) new_topic st, [])).
Proof.
  intros Hne. unfold update_settings. rewrite decide_True by done.
  destruct new_topic; simpl; (split; [done|]); (split; [done|]); (split; [done|]);
    split; intros; unfold check_class_statuses, hourly_reminder_check; simpl;
    rewrite ?decide_True by done; by rewrite ?map_to_list_empty.
Qed.

Lemma update_settings_new_term_witness :
  "2261" ≠ term (app_settings st_open)
  ∧ tracked_classes (update_settings (Some "2261") None st_open) = ∅
  ∧ notify_tracker (update_settings (Some "2261") None st_open) = ∅
  ∧ hourly_reminder_check delivers 3601000 (update_settings (Some "2261") None st_open)
    = (update_settings (Some "2261") None st_open, []).
Proof.
  assert ("2261" ≠ term (app_settings st_open)) as Hne by discriminate.
  destruct (update_settings_new_term "2261" None st_open Hne) as (H1 & H2 & _ & _ & H5).
  split; [exact Hne|]. split; [exact H1|]. split; [exact H2|].
  exact (H5 delivers 3601000).
Defined.

(** X3. The reply of [update_settings] is computed after the change: when
    the new term is four characters long and [int] rejects its middle, the
    request raises, yet the term is stored and both dictionaries are empty,
    and [get_full_state] raises from then on. *)
Theorem update_settings_commits_before_raising int c0 c1 c2 c3 new_topic st :
  String c0 (String c1 (String c2 (String c3 EmptyString))) ≠ term (app_settings st) →
  int (String c1 (String c2 EmptyString)) = None →
  let st' := update_settings
               (Some (String c0 (String c1 (String c2 (String c3 EmptyString)))))
               new_topic st in
  update_settings_reply int
    (Some (String c0 (String c1 (String c2 (String c3 EmptyString))))) new_topic st
  = ValueError
  ∧ term (app_settings st') = String c0 (String c1 (String c2 (String c3 EmptyString)))
  ∧ tracked_classes st' = ∅ ∧ notify_tracker st' = ∅
  ∧ get_full_state int st' = ValueError.
Proof.
  intros Hne Hint st'.
  destruct (update_settings_term_changed _ new_topic st Hne) as (H1 & H2 & H3).
  fold st' in H1, H2, H3.
  unfold update_settings_reply, get_full_state. fold st'. rewrite H3.
  unfold get_term_name. by rewrite Hint.
Qed.

Lemma update_settings_commits_before_raising_witness :
  "2x57" ≠ term (app_settings st_open)
  ∧ decimal "x5" = None
  ∧ update_settings_reply decimal (Some "2x57") None st_open = ValueError
  ∧ tracked_classes (update_settings (Some "2x57") None st_open) = ∅
  ∧ get_full_state decimal (update_settings (Some "2x57") None st_open) = ValueError.
Proof.
  assert ("2x57" ≠ term (app_settings st_open)) as Hne by discriminate.
  destruct (update_settings_commits_before_raising decimal
              "2"%char "x"%char "5"%char "7"%char None st_open Hne eq_refl)
    as (H1 & _ & H3 & _ & H5).
  split; [exact Hne|]. split; [reflexivity|]. split; [exact H1|].
  split; [exact H3|exact H5].
Defined.

(** ** Removing and adding a class *)

(** X4. Removing a class takes its snapshot and its tracker out of the two
    dictionaries and leaves every other class as it was; removing it again,
    or removing a class that was never tracked, changes nothing. *)
Theorem delete_tracked_class_forgets k st :
  tracked_classes (delete_tracked_class k st) !! k = None
  ∧ tracker_of (delete_tracked_class k st) k = None
  ∧ (∀ k', k' ≠ k →
       tracked_classes (delete_tracked_class k st) !! k' = tracked_classes st !! k'
       ∧ tracker_of (delete_tracked_class k st) k' = tracker_of st k')
  ∧ delete_tracked_class k (delete_tracked_class k st) = delete_tracked_class k st
  ∧ (tracked_classes st !! k = None → notify_tracker st !! k = None →
     delete_tracked_class k st = st).
Proof.
  unfold delete_tracked_class, tracker_of. simpl.
  split; [apply lookup_delete_eq|]. split; [by rewrite lookup_delete_eq|].
  split; [|split].
  - intros k' Hne. by rewrite !lookup_delete_ne.
  - by rewrite !delete_delete_eq.
  - intros H1 H2. destruct st. simpl in *. by rewrite !delete_id.
Qed.

Lemma run_untracked ops st k :
  wf st → tracked_classes st !! k = None → notify_tracker st !! k = None →
  wf (run ops st).1
  ∧ tracked_classes (run ops st).1 !! k = None
  ∧ notify_tracker (run ops st).1 !! k = None
  ∧ about k (run ops st).2 = [].
Proof.
  unfold run. revert st. induction ops as [|o ops IH]; intros st Hwf Ht Hn; [done|].
  assert (wf (apply_op o st).1
          ∧ view (apply_op o st).1 k = view st k
          ∧ about k (apply_op o st).2 = []) as (Hwf1 & Hv & Ha).
  { destruct o as [fetch post time_ms|post now]; simpl.
    - destruct (check_class_statuses_keyed fetch post time_ms st Hwf) as (? & _ & _ & H).
      by destruct (H k Ht).
    - destruct (hourly_reminder_check_keyed post now st Hwf) as (? & _ & _ & H).
      by destruct (H k Hn). }
  simpl. destruct (apply_op o st) as [st1 out1]. simpl in *.
  unfold view in Hv.
  destruct (IH st1 Hwf1) as (Hwf2 & Ht2 & Hn2 & Ha2); [congruence|congruence|].
  destruct (for_each apply_op ops st1) as [st2 out2]. simpl in *.
  by rewrite about_app, Ha, Ha2.
Qed.

(** X5. Once a class is removed, no status check and no reminder run sends
    anything for it or tracks it again, however many of them follow. *)
Theorem delete_tracked_class_silences k ops st :
  wf st →
  about k (run ops (delete_tracked_class k st)).2 = []
  ∧ tracked_classes (run ops (delete_tracked_class k st)).1 !! k = None
  ∧ tracker_of (run ops (delete_tracked_class k st)).1 k = None.
Proof.
  intros Hwf.
  destruct (run_untracked ops (delete_tracked_class k st) k) as (_ & H1 & H2 & H3).
  - by apply delete_tracked_class_wf.
  - apply lookup_delete_eq.
  - apply lookup_delete_eq.
  - split; [done|]. split; [done|]. by apply tracker_of_absent.
Qed.

Lemma delete_tracked_class_silences_witness :
  let ops := [Observe (cse110_only "OPEN") delivers (λ _, 2000);
              Tick delivers 3601000;
              Observe (cse110_only "FULL") delivers (λ _, 3700000)] in
  wf st_open
  ∧ about "12345" (run ops (delete_tracked_class "12345" st_open)).2 = []
  ∧ tracked_classes (run ops (delete_tracked_class "12345" st_open)).1 !! "12345" = None.
Proof.
  intros ops. split; [exact wf_st_open|].
  destruct (delete_tracked_class_silences "12345" ops st_open wf_st_open)
    as (H1 & H2 & _).
  split; [exact H1|exact H2].
Defined.

Lemma add_tracked_class_other_lookup fetch post now cd st k' :
  k' ≠ classNumber cd →
  tracked_classes (add_tracked_class fetch post now cd st).1.2 !! k'
    = tracked_classes st !! k'
  ∧ notify_tracker (add_tracked_class fetch post now cd st).1.2 !! k'
    = notify_tracker st !! k'.
Proof.
  intros Hne. unfold add_tracked_class. case_decide; [done|].
  unfold perform_immediate_check. rewrite immediate_check_loop_find.
  destruct (list_find _ _) as [[i fd]|]; simpl.
  - unfold immediate_check_match. case_decide; simpl;
      by rewrite ?lookup_insert_ne by done.
  - by rewrite lookup_insert_ne.
Qed.

Lemma add_tracked_class_other_tracker fetch post now cd st k' :
  wf st → k' ≠ classNumber cd →
  tracker_of (add_tracked_class fetch post now cd st).1.2 k' = tracker_of st k'.
Proof.
  intros Hwf Hne.
  unfold add_tracked_class. case_decide; [done|].
  unfold perform_immediate_check. rewrite immediate_check_loop_find.
  pose proof (set_tracked_wf _ cd st Hwf eq_refl) as Hwf1.
  destruct (list_find _ _) as [[i fd]|]; simpl; [|done].
  pose proof (immediate_check_match_other post now (classNumber cd) fd
                (set_tracked (classNumber cd) cd st) k' Hwf1 Hne) as Ho.
  by destruct (immediate_check_match _ _ _ _ _).
Qed.

Lemma add_tracked_class_settings fetch post now cd st :
  app_settings (add_tracked_class fetch post now cd st).1.2 = app_settings st.
Proof.
  unfold add_tracked_class. case_decide; [done|].
  unfold perform_immediate_check. rewrite immediate_check_loop_find.
  destruct (list_find _ _) as [[i fd]|]; simpl; [|done].
  destruct (immediate_check_match_tracker post now (classNumber cd) fd
              (set_tracked (classNumber cd) cd st)) as (_ & _ & Hs & _).
  by destruct (immediate_check_match _ _ _ _ _).
Qed.

(** X6. Adding a class touches no other class: the snapshot and the tracker
    of every other class number are as before, and so are the settings. *)
Theorem add_tracked_class_other fetch post now cd st k' :
  wf st → k' ≠ classNumber cd →
  tracked_classes (add_tracked_class fetch post now cd st).1.2 !! k'
    = tracked_classes st !! k'
  ∧ tracker_of (add_tracked_class fetch post now cd st).1.2 k' = tracker_of st k'
  ∧ app_settings (add_tracked_class fetch post now cd st).1.2 = app_settings st.
Proof.
  intros Hwf Hne.
  split; [by apply add_tracked_class_other_lookup|].
  split; [by apply add_tracked_class_other_tracker|].
  apply add_tracked_class_settings.
Qed.

Lemma add_tracked_class_other_witness :
  wf st_full ∧ "12345" ≠ classNumber (mat265 "FULL")
  ∧ tracked_classes st_two !! "12345" = tracked_classes st_full !! "12345"
  ∧ tracker_of st_two "12345" = tracker_of st_full "12345".
Proof.
  assert ("12345" ≠ classNumber (mat265 "FULL")) as Hne by discriminate.
  destruct (add_tracked_class_other (mat265_only "FULL") delivers 0 (mat265 "FULL")
              st_full "12345" wf_st_full Hne) as (H1 & H2 & _).
  split; [exact wf_st_full|]. split; [exact Hne|]. split; [exact H1|exact H2].
Defined.

(** X7. Adding a class that was not tracked and removing it again gives
    back the two dictionaries as they were, with every tracker as it was. *)
Theorem add_then_delete fetch post now cd st :
  wf st →
  tracked_classes st !! classNumber cd = None →
  notify_tracker st !! classNumber cd = None →
  let st' := delete_tracked_class (classNumber cd)
               (add_tracked_class fetch post now cd st).1.2 in
  tracked_classes st' = tracked_classes st
  ∧ notify_tracker st' = notify_tracker st
  ∧ ∀ k, tracker_of st' k = tracker_of st k.
Proof.
  intros Hwf Ht Hn st'.
  assert (∀ k, tracked_classes st' !! k = tracked_classes st !! k
               ∧ notify_tracker st' !! k = notify_tracker st !! k) as Hl.
  { intros k. subst st'. unfold delete_tracked_class. simpl.
    destruct (decide (k = classNumber cd)) as [->|Hne].
    - by rewrite !lookup_delete_eq.
    - rewrite !lookup_delete_ne by done. by apply add_tracked_class_other_lookup. }
  split; [apply map_eq; intros k; apply Hl|].
  split; [apply map_eq; intros k; apply Hl|].
  intros k. destruct (decide (k = classNumber cd)) as [->|Hne].
  - rewrite !tracker_of_absent; [done|done|]. by rewrite (proj2 (Hl _)).
  - subst st'. unfold delete_tracked_class, tracker_of at 1. simpl.
    rewrite lookup_delete_ne by done.
    by apply add_tracked_class_other_tracker.
Qed.

Lemma add_then_delete_witness :
  let st' := delete_tracked_class "67890"
               (add_tracked_class (mat265_only "OPEN") delivers 500 (mat265 "OPEN")
                  st_open).1.2 in
  wf st_open
  ∧ tracked_classes st_open !! "67890" = None
  ∧ notify_tracker st_open !! "67890" = None
  ∧ tracked_classes st' = tracked_classes st_open
  ∧ notify_tracker st' = notify_tracker st_open
  ∧ tracker_of st' "12345" = tracker_of st_open "12345".
Proof.
  intros st'.
  assert (tracked_classes st_open !! classNumber (mat265 "OPEN") = None) as H1
    by (vm_compute; reflexivity).
  assert (notify_tracker st_open !! classNumber (mat265 "OPEN") = None) as H2
    by (vm_compute; reflexivity).
  destruct (add_then_delete (mat265_only "OPEN") delivers 500 (mat265 "OPEN")
              st_open wf_st_open H1 H2) as (H3 & H4 & H5).
  split; [exact wf_st_open|]. split; [exact H1|]. split; [exact H2|].
  split; [exact H3|]. split; [exact H4|exact (H5 "12345")].
Defined.

Lemma delete_tracked_class_forgets_witness :
  tracked_classes st_unseen !! "67890" = None
  ∧ notify_tracker st_unseen !! "67890" = None
  ∧ delete_tracked_class "67890" st_unseen = st_unseen
  ∧ tracked_classes (delete_tracked_class "12345" st_two) !! "12345" = None
  ∧ tracked_classes (delete_tracked_class "12345" st_two) !! "67890"
    = tracked_classes st_two !! "67890".
Proof.
  assert (tracked_classes st_unseen !! "67890" = None) as H1 by (vm_compute; reflexivity).
  assert (notify_tracker st_unseen !! "67890" = None) as H2 by (vm_compute; reflexivity).
  assert ("67890" ≠ "12345") as Hne by discriminate.
  split; [exact H1|]. split; [exact H2|].
  split; [exact (proj2 (proj2 (proj2 (proj2
                   (delete_tracked_class_forgets "67890" st_unseen)))) H1 H2)|].
  destruct (delete_tracked_class_forgets "12345" st_two) as (H3 & _ & H4 & _).
  split; [exact H3|exact (proj1 (H4 "67890" Hne))].
Defined.

(** ** More on the status check *)

Lemma observe_out post now num nd st :
  wf st →
  (observe post now num nd st).2
  = edge_out post st nd (default fresh_tracker (tracker_of st num)).
Proof.
  intros Hwf. destruct (notify_tracker st !! num) as [l|] eqn:Hk.
  - destruct (wf_stored _ _ _ Hwf Hk) as [t Hl].
    rewrite (tracker_of_stored _ _ _ Hk), Hl. simpl.
    by destruct (observe_stored post now num nd st l t Hk Hl) as (_ & -> & _).
  - rewrite (tracker_of_absent _ _ Hk). simpl. by apply observe_absent.
Qed.

Lemma fresh_details_map_None l k :
  Forall (λ x, classNumber x ≠ k) l → fresh_details_map l !! k = None.
Proof.
  intros Hall. destruct (fresh_details_map l !! k) as [d|] eqn:E; [|done].
  apply fresh_details_map_keyed in E as [Hk Hd].
  rewrite Forall_forall in Hall. by destruct (Hall d Hd).
Qed.

Lemma add_tracked_class_found fetch post now cd st i fd :
  classNumber cd ≠ "" →
  list_find (λ x, classNumber x = classNumber cd)
            (fetch (className cd) (term (app_settings st))) = Some (i, fd) →
  tracked_classes (add_tracked_class fetch post now cd st).1.2 !! classNumber cd = Some fd
  ∧ (status fd = "OPEN" →
     tracker_of (add_tracked_class fetch post now cd st).1.2 (classNumber cd)
       = Some (Tracker 1 now "OPEN"))
  ∧ (status fd ≠ "OPEN" →
     tracker_of (add_tracked_class fetch post now cd st).1.2 (classNumber cd)
       = Some fresh_tracker).
Proof.
  intros Hne Hfind. unfold add_tracked_class. rewrite decide_False by done.
  unfold perform_immediate_check. rewrite immediate_check_loop_find. simpl.
  rewrite Hfind.
  destruct (immediate_check_match_tracker post now (classNumber cd) fd
              (set_tracked (classNumber cd) cd st)) as (H1 & _ & _ & H4 & H5).
  destruct (immediate_check_match _ _ _ _ _) as [st1 out1]. simpl in *.
  split; [done|]. split; intros Ho; [by destruct (H4 Ho)|by destruct (H5 Ho)].
Qed.

(** X8. A status check that follows the immediate check and finds the class
    in the status the immediate check saw sends nothing for it and leaves the
    count and lastSent of its tracker alone. *)
Theorem add_then_check_is_silent fetch fetch2 post post2 now time_ms cd st i fd nd :
  wf st → classNumber cd ≠ "" →
  list_find (λ x, classNumber x = classNumber cd)
            (fetch (className cd) (term (app_settings st))) = Some (i, fd) →
  fresh_details_map (fetch2 (className fd) (term (app_settings st))) !! classNumber cd
    = Some nd →
  status nd = status fd →
  let st1 := (add_tracked_class fetch post now cd st).1.2 in
  about (classNumber cd) (check_class_statuses fetch2 post2 time_ms st1).2 = []
  ∧ ∃ t t',
      tracker_of st1 (classNumber cd) = Some t
      ∧ tracker_of (check_class_statuses fetch2 post2 time_ms st1).1 (classNumber cd)
        = Some t'
      ∧ count t' = count t ∧ lastSent t' = lastSent t.
Proof.
  intros Hwf Hne Hfind Hfresh Hst st1.
  pose proof (add_tracked_class_found fetch post now cd st i fd Hne Hfind)
    as (Htr & Hopen & Hother).
  fold st1 in Htr, Hopen, Hother.
  assert (wf st1) as Hwf1 by by apply add_tracked_class_wf.
  assert (app_settings st1 = app_settings st) as Hs by apply add_tracked_class_settings.
  destruct (check_class_statuses_keyed fetch2 post2 time_ms st1 Hwf1) as (_ & _ & Hin & _).
  destruct (Hin _ _ Htr) as [Hv Ha]. simpl in Hv, Ha.
  rewrite Hs in Hv, Ha. unfold check_num in Hv, Ha. rewrite Hfresh in Hv, Ha.
  rewrite Ha, (observe_out _ _ _ _ _ Hwf1).
  assert (∃ t, tracker_of st1 (classNumber cd) = Some t
               ∧ (status fd = "OPEN" → lastStatus t = "OPEN")
               ∧ (status fd ≠ "OPEN" → lastStatus t = "FULL")) as (t & Ht & Ho & Hf).
  { destruct (decide (status fd = "OPEN")) as [E|E].
    - rewrite (Hopen E). by eexists.
    - rewrite (Hother E). by eexists. }
  rewrite Ht. simpl.
  assert (tracker_of (check_class_statuses fetch2 post2 time_ms st1).1 (classNumber cd)
          = Some (edge_tracker (time_ms (classNumber cd)) (status nd) t)) as Ht'.
  { unfold view in Hv. injection Hv as _ _ ->.
    by apply observe_tracker_of_stored. }
  rewrite Ht'. unfold edge_out, edge_tracker. rewrite Hst.
  destruct (decide (status fd = "OPEN")) as [E|E].
  - rewrite (Ho E), E. rewrite !decide_True by done. split; [done|]. by exists t, t.
  - rewrite (Hf E). repeat case_decide; try done; try tauto;
      (split; [done|]); by eexists _, _.
Qed.

Lemma add_then_check_is_silent_witness :
  let st1 := (add_tracked_class (cse110_only "OPEN") delivers 1000 (cse110 "OPEN")
                initial_state).1.2 in
  wf initial_state
  ∧ classNumber (cse110 "OPEN") ≠ ""
  ∧ about "12345"
      (check_class_statuses (cse110_only "OPEN") delivers (λ _, 2000) st1).2 = [].
Proof.
  intros st1.
  assert (classNumber (cse110 "OPEN") ≠ "") as Hne by discriminate.
  split; [exact wf_initial|]. split; [exact Hne|].
  exact (proj1 (add_then_check_is_silent (cse110_only "OPEN") (cse110_only "OPEN")
                  delivers delivers 1000 (λ _, 2000) (cse110 "OPEN") initial_state
                  0%nat (cse110 "OPEN") (cse110 "OPEN")
                  wf_initial Hne eq_refl eq_refl eq_refl)).
Defined.

(** X9. A tracked class that the fetch result of its group does not contain
    keeps its snapshot and its tracker, and nothing is sent for it (line
    116). *)
Theorem check_class_statuses_missing fetch post time_ms st k d :
  wf st → tracked_classes st !! k = Some d →
  Forall (λ x, classNumber x ≠ k) (fetch (className d) (term (app_settings st))) →
  tracked_classes (check_class_statuses fetch post time_ms st).1 !! k = Some d
  ∧ tracker_of (check_class_statuses fetch post time_ms st).1 k = tracker_of st k
  ∧ about k (check_class_statuses fetch post time_ms st).2 = [].
Proof.
  intros Hwf Hd Hall.
  destruct (check_class_statuses_keyed fetch post time_ms st Hwf) as (_ & _ & Hin & _).
  destruct (Hin k d Hd) as [Hv Ha]. simpl in Hv, Ha.
  unfold check_num in Hv, Ha. rewrite (fresh_details_map_None _ _ Hall) in Hv, Ha.
  unfold view in Hv. simpl in Hv, Ha. injection Hv as -> _ ->. by rewrite Ha.
Qed.

Lemma check_class_statuses_missing_witness :
  let r := check_class_statuses (mat265_only "OPEN") delivers (λ _, 2000) st_open in
  wf st_open
  ∧ tracked_classes st_open !! "12345" = Some (cse110 "OPEN")
  ∧ Forall (λ x, classNumber x ≠ "12345")
      (mat265_only "OPEN" (className (cse110 "OPEN")) (term (app_settings st_open)))
  ∧ tracked_classes r.1 !! "12345" = Some (cse110 "OPEN")
  ∧ tracker_of r.1 "12345" = tracker_of st_open "12345"
  ∧ about "12345" r.2 = [].
Proof.
  intros r.
  assert (tracked_classes st_open !! "12345" = Some (cse110 "OPEN")) as Hd
    by (vm_compute; reflexivity).
  assert (Forall (λ x, classNumber x ≠ "12345")
            (mat265_only "OPEN" (className (cse110 "OPEN")) (term (app_settings st_open))))
    as Hall by (vm_compute; constructor).
  split; [exact wf_st_open|]. split; [exact Hd|]. split; [exact Hall|].
  exact (check_class_statuses_missing (mat265_only "OPEN") delivers (λ _, 2000)
           st_open "12345" (cse110 "OPEN") wf_st_open Hd Hall).
Defined.

(** X10. A status check neither adds nor removes a tracked class, leaves
    [notify_tracker] with the same keys and the same tracker objects, and
    does not touch the settings. *)
Theorem check_class_statuses_keeps fetch post time_ms st :
  wf st →
  notify_tracker (check_class_statuses fetch post time_ms st).1 = notify_tracker st
  ∧ dom (tracked_classes (check_class_statuses fetch post time_ms st).1)
    = dom (tracked_classes st)
  ∧ app_settings (check_class_statuses fetch post time_ms st).1 = app_settings st.
Proof.
  intros Hwf.
  destruct (check_class_statuses_keyed fetch post time_ms st Hwf) as (_ & Hs & Hin & Hout).
  assert (∀ k,
    notify_tracker (check_class_statuses fetch post time_ms st).1 !! k
      = notify_tracker st !! k
    ∧ (is_Some (tracked_classes (check_class_statuses fetch post time_ms st).1 !! k)
       ↔ is_Some (tracked_classes st !! k))) as H.
  { intros k. destruct (tracked_classes st !! k) as [d|] eqn:Hd.
    - destruct (Hin k d Hd) as [Hv _]. simpl in Hv. unfold view in Hv.
      injection Hv as Ht Hn _. rewrite Ht, Hn. unfold check_num.
      destruct (fresh_details_map _ !! k) as [nd|]; simpl; [|by rewrite Hd].
      destruct (observe_frame post (time_ms k) k nd st) as (-> & _ & -> & _).
      rewrite lookup_insert_eq. split; [done|]. split; by eexists.
    - destruct (Hout k Hd) as [Hv _]. unfold view in Hv.
      injection Hv as Ht Hn _. by rewrite Ht, Hn, Hd. }
  split; [apply map_eq; intros k; apply H|]. split; [|done].
  apply set_eq. intros k. rewrite !elem_of_dom. apply H.
Qed.

Lemma check_class_statuses_keeps_witness :
  let r := check_class_statuses (cse110_only "OPEN") delivers (λ _, 2000) st_two in
  wf st_two
  ∧ notify_tracker r.1 = notify_tracker st_two
  ∧ dom (tracked_classes r.1) = dom (tracked_classes st_two).
Proof.
  intros r. split; [exact wf_st_two|].
  destruct (check_class_statuses_keeps (cse110_only "OPEN") delivers (λ _, 2000)
              st_two wf_st_two) as (H1 & H2 & _).
  split; [exact H1|exact H2].
Defined.

(** X11. Every notification of a status check is a seat-opened or a
    class-full one whose kind is the status in the details it carries; it is
    about a class that was tracked, the details are the ones now filed in
    [tracked_classes], and it is the only notification for that class in
    this check. *)
Theorem check_class_statuses_notifications fetch post time_ms st n :
  wf st → n ∈ (check_class_statuses fetch post time_ms st).2 →
  (reason n = "OPEN" ∨ reason n = "FULL")
  ∧ status (class_details n) = reason n
  ∧ is_Some (tracked_classes st !! classNumber (class_details n))
  ∧ tracked_classes (check_class_statuses fetch post time_ms st).1
      !! classNumber (class_details n) = Some (class_details n)
  ∧ about (classNumber (class_details n)) (check_class_statuses fetch post time_ms st).2
    = [n].
Proof.
  intros Hwf Hn.
  assert (n ∈ about (classNumber (class_details n))
                (check_class_statuses fetch post time_ms st).2) as Hab.
  { unfold about. by apply list_elem_of_filter. }
  destruct (check_class_statuses_keyed fetch post time_ms st Hwf) as (_ & _ & Hin & Hout).
  destruct (tracked_classes st !! classNumber (class_details n)) as [d|] eqn:Hd.
  2:{ destruct (Hout _ Hd) as [_ Ha]. rewrite Ha in Hab. by apply elem_of_nil in Hab. }
  destruct (Hin _ _ Hd) as [Hv Ha]. simpl in Hv, Ha.
  rewrite Ha in Hab |- *. unfold view in Hv. injection Hv as -> _ _.
  unfold check_num in *.
  destruct (fresh_details_map _ !! _) as [nd|] eqn:E;
    [|by apply elem_of_nil in Hab].
  destruct (observe_frame post (time_ms (classNumber (class_details n)))
              (classNumber (class_details n)) nd st) as (_ & _ & -> & _).
  rewrite lookup_insert_eq.
  rewrite (observe_out _ _ _ _ _ Hwf) in Hab |- *.
  unfold edge_out in *.
  repeat case_decide; try (by apply elem_of_nil in Hab);
    apply list_elem_of_singleton in Hab; subst n; simpl in *;
    (split; [auto|]); (split; [tauto|]); (split; [by eexists|]); done.
Qed.

Lemma check_class_statuses_notifications_witness :
  let r := check_class_statuses (cse110_only "OPEN") delivers (λ _, 2000) st_full in
  let n := send_notification delivers st_full (cse110 "OPEN") "OPEN" in
  wf st_full ∧ n ∈ r.2
  ∧ status (class_details n) = reason n
  ∧ tracked_classes r.1 !! "12345" = Some (cse110 "OPEN")
  ∧ about "12345" r.2 = [n].
Proof.
  intros r n.
  assert (n ∈ r.2) as Hn by (vm_compute; left).
  destruct (check_class_statuses_notifications (cse110_only "OPEN") delivers
              (λ _, 2000) st_full n wf_st_full Hn) as (_ & H2 & _ & H4 & H5).
  split; [exact wf_st_full|]. split; [exact Hn|]. split; [exact H2|].
  split; [exact H4|exact H5].
Defined.

(** ** More on the reminder run *)

Lemma view_eq_inv st1 st2 k :
  view st1 k = view st2 k →
  tracked_classes st1 !! k = tracked_classes st2 !! k
  ∧ notify_tracker st1 !! k = notify_tracker st2 !! k
  ∧ tracker_of st1 k = tracker_of st2 k.
Proof. unfold view. by intros [= -> -> ->]. Qed.

Lemma remind_one_dicts post now x st :
  tracked_classes (remind_one post now x st).1 = tracked_classes st
  ∧ notify_tracker (remind_one post now x st).1 = notify_tracker st.
Proof.
  unfold remind_one. destruct x as [num l].
  destruct (tracked_classes st !! num); [|done]. by repeat case_decide.
Qed.

Lemma hourly_reminder_check_dicts post now st :
  wf st →
  tracked_classes (hourly_reminder_check post now st).1 = tracked_classes st
  ∧ notify_tracker (hourly_reminder_check post now st).1 = notify_tracker st.
Proof.
  intros Hwf.
  destruct (hourly_reminder_check_keyed post now st Hwf) as (_ & Hs & Hin & Hout).
  assert (∀ k,
    tracked_classes (hourly_reminder_check post now st).1 !! k = tracked_classes st !! k
    ∧ notify_tracker (hourly_reminder_check post now st).1 !! k = notify_tracker st !! k)
    as H.
  { intros k. destruct (notify_tracker st !! k) as [l|] eqn:Hk.
    - destruct (Hin k l Hk) as [Hv _]. apply view_eq_inv in Hv as (-> & -> & _).
      destruct (remind_one_dicts post now (k, l) st) as [-> ->]. by rewrite Hk.
    - destruct (Hout k Hk) as [Hv _]. apply view_eq_inv in Hv as (-> & -> & _).
      by rewrite Hk. }
  split; apply map_eq; intros k; apply H.
Qed.

(** X12. A reminder run leaves both dictionaries and the settings as they
    are; in a tracker it changes at most the count, by one upwards, and
    lastSent, never lastStatus. *)
Theorem hourly_reminder_check_keeps post now st :
  wf st →
  tracked_classes (hourly_reminder_check post now st).1 = tracked_classes st
  ∧ notify_tracker (hourly_reminder_check post now st).1 = notify_tracker st
  ∧ app_settings (hourly_reminder_check post now st).1 = app_settings st
  ∧ ∀ k t, tracker_of st k = Some t →
      ∃ t', tracker_of (hourly_reminder_check post now st).1 k = Some t'
            ∧ lastStatus t' = lastStatus t
            ∧ count t ≤ count t' ≤ count t + 1.
Proof.
  intros Hwf.
  destruct (hourly_reminder_check_keyed post now st Hwf) as (_ & Hs & _).
  destruct (hourly_reminder_check_dicts post now st Hwf) as [Htr Hnt].
  split; [done|]. split; [done|]. split; [done|].
  intros k t Ht.
  pose proof (hourly_reminder_check_class post now st k Hwf) as Hc.
  rewrite Ht in Hc.
  destruct (tracked_classes st !! k) as [d|].
  - case_decide; destruct Hc as [_ ->]; eexists; (split; [done|]);
      (split; [done|simpl; lia]).
  - destruct Hc as [_ ->]. exists t. split; [done|]. split; [done|lia].
Qed.

Lemma hourly_reminder_check_keeps_witness :
  wf st_open
  ∧ tracked_classes (hourly_reminder_check delivers 3601000 st_open).1
    = tracked_classes st_open
  ∧ notify_tracker (hourly_reminder_check delivers 3601000 st_open).1
    = notify_tracker st_open.
Proof.
  split; [exact wf_st_open|].
  destruct (hourly_reminder_check_keeps delivers 3601000 st_open wf_st_open)
    as (H1 & H2 & _).
  split; [exact H1|exact H2].
Defined.

(** X13. Every notification of a reminder run is a reminder for a class
    whose filed snapshot is OPEN; it carries that snapshot, it is the only
    notification for the class in this run, and the count its text shows
    lies between 1 and MAX_NOTIFICATIONS - 1. *)
Theorem hourly_reminder_check_notifications post now st n :
  wf st → n ∈ (hourly_reminder_check post now st).2 →
  reason n = "REMINDER"
  ∧ status (class_details n) = "OPEN"
  ∧ tracked_classes st !! classNumber (class_details n) = Some (class_details n)
  ∧ about (classNumber (class_details n)) (hourly_reminder_check post now st).2 = [n]
  ∧ ∀ m, message_of n = Some m →
      ∃ c, m = StillOpen (className (class_details n)) (classNumber (class_details n))
                 c MAX_NOTIFICATIONS
           ∧ 1 ≤ c ≤ MAX_NOTIFICATIONS - 1.
Proof.
  intros Hwf Hn.
  assert (n ∈ about (classNumber (class_details n))
                (hourly_reminder_check post now st).2) as Hab.
  { unfold about. by apply list_elem_of_filter. }
  pose proof (hourly_reminder_check_class post now st
                (classNumber (class_details n)) Hwf) as Hc.
  destruct (tracked_classes st !! classNumber (class_details n)) as [d|] eqn:Hd.
  2:{ destruct Hc as [Ha _]. rewrite Ha in Hab. by apply elem_of_nil in Hab. }
  destruct (tracker_of st (classNumber (class_details n))) as [t|] eqn:Ht.
  2:{ destruct Hc as [Ha _]. rewrite Ha in Hab. by apply elem_of_nil in Hab. }
  case_decide as Hdue.
  2:{ destruct Hc as [Ha _]. rewrite Ha in Hab. by apply elem_of_nil in Hab. }
  destruct Hc as [Ha _]. rewrite Ha in Hab |- *.
  apply list_elem_of_singleton in Hab.
  pose proof (wf_keyed _ Hwf _ _ Hd) as Hkey.
  assert (class_details n = d) as Hnd by by rewrite Hab.
  rewrite Hnd in *. split; [by rewrite Hab|]. split; [tauto|]. split; [done|].
  split; [by rewrite Hab|].
  intros m. rewrite Hab. unfold message_of, send_notification, render. simpl.
  rewrite Ht. simpl.
  case_decide; [done|]. destruct (post _); intros [= <-];
    exists (count t); (split; [done|]); unfold MAX_NOTIFICATIONS in *; lia.
Qed.

Lemma hourly_reminder_check_notifications_witness :
  let n := send_notification delivers st_open (cse110 "OPEN") "REMINDER" in
  wf st_open
  ∧ n ∈ (hourly_reminder_check delivers 3601000 st_open).2
  ∧ reason n = "REMINDER"
  ∧ about "12345" (hourly_reminder_check delivers 3601000 st_open).2 = [n].
Proof.
  intros n.
  assert (n ∈ (hourly_reminder_check delivers 3601000 st_open).2) as Hn
    by (vm_compute; left).
  destruct (hourly_reminder_check_notifications delivers 3601000 st_open n
              wf_st_open Hn) as (H1 & _ & _ & H4 & _).
  split; [exact wf_st_open|]. split; [exact Hn|]. split; [exact H1|exact H4].
Defined.

(** X14. After a run that sent a reminder for a class, a run less than an
    hour later sends nothing for that class. *)
Theorem reminders_an_hour_apart post1 post2 now1 now2 st k :
  wf st →
  emitted "REMINDER" k (hourly_reminder_check post1 now1 st).2 ≠ [] →
  now2 - now1 < 3600000 →
  about k (hourly_reminder_check post2 now2 (hourly_reminder_check post1 now1 st).1).2 = [].
Proof.
  intros Hwf Hsent Hlt. rewrite emitted_about in Hsent.
  destruct (hourly_reminder_check_keyed post1 now1 st Hwf) as (Hwf1 & _).
  destruct (hourly_reminder_check_dicts post1 now1 st Hwf) as (Htr & _).
  pose proof (hourly_reminder_check_class post1 now1 st k Hwf) as Hc.
  pose proof (hourly_reminder_check_class post2 now2
                (hourly_reminder_check post1 now1 st).1 k Hwf1) as Hc2.
  rewrite Htr in Hc2.
  destruct (tracked_classes st !! k) as [d|]; [|by destruct Hc2].
  destruct (tracker_of st k) as [t|].
  2:{ destruct Hc as [Ha _]. by rewrite Ha in Hsent. }
  case_decide as Hdue.
  2:{ destruct Hc as [Ha _]. by rewrite Ha in Hsent. }
  destruct Hc as [_ Ht1]. rewrite Ht1 in Hc2. simpl in Hc2.
  rewrite decide_False in Hc2 by lia. by destruct Hc2.
Qed.

Lemma reminders_an_hour_apart_witness :
  wf st_open
  ∧ emitted "REMINDER" "12345" (hourly_reminder_check delivers 3601000 st_open).2 ≠ []
  ∧ 3900000 - 3601000 < 3600000
  ∧ about "12345"
      (hourly_reminder_check delivers 3900000
         (hourly_reminder_check delivers 3601000 st_open).1).2 = [].
Proof.
  assert (emitted "REMINDER" "12345"
            (hourly_reminder_check delivers 3601000 st_open).2 ≠ []) as Hs
    by (vm_compute; discriminate).
  assert (3900000 - 3601000 < 3600000) as Hlt by reflexivity.
  split; [exact wf_st_open|]. split; [exact Hs|]. split; [exact Hlt|].
  exact (reminders_an_hour_apart delivers delivers 3601000 3900000 st_open "12345"
           wf_st_open Hs Hlt).
Defined.

(** ** More on the per-entity branch *)

(** X15. A class that leaves OPEN through a status that is neither OPEN nor
    FULL and only then turns FULL never gets the class-full notification:
    neither observation sends anything, and the count and lastSent of the
    open streak stay in the tracker. *)
Theorem closing_through_another_status post1 post2 t1 t2 num nd1 nd2 st t :
  tracker_of st num = Some t → lastStatus t = "OPEN" →
  status nd1 ≠ "OPEN" → status nd1 ≠ "FULL" → status nd2 = "FULL" →
  let r1 := observe post1 t1 num nd1 st in
  let r2 := observe post2 t2 num nd2 r1.1 in
  r1.2 = [] ∧ r2.2 = []
  ∧ tracker_of r1.1 num = Some (Tracker (count t) (lastSent t) (status nd1))
  ∧ tracker_of r2.1 num = Some (Tracker (count t) (lastSent t) "FULL").
Proof.
  intros Ht Hopen H1 H2 H3 r1 r2.
  assert (edge_tracker t1 (status nd1) t = Tracker (count t) (lastSent t) (status nd1))
    as He1.
  { unfold edge_tracker. rewrite Hopen.
    repeat case_decide; try done; try tauto; try congruence. }
  pose proof (observe_tracker_of_stored post1 t1 num nd1 st t Ht) as Ht1.
  fold r1 in Ht1. rewrite He1 in Ht1.
  pose proof (observe_tracker_of_stored post2 t2 num nd2 r1.1 _ Ht1) as Ht2.
  fold r2 in Ht2.
  assert (r1.2 = []) as Ho1.
  { unfold tracker_of in Ht.
    destruct (notify_tracker st !! num) as [l|] eqn:E; simpl in Ht; [|done].
    subst r1. destruct (observe_stored post1 t1 num nd1 st l t E Ht) as (_ & -> & _).
    unfold edge_out. rewrite Hopen. repeat case_decide; try done; tauto. }
  assert (r2.2 = []) as Ho2.
  { unfold tracker_of in Ht1.
    destruct (notify_tracker r1.1 !! num) as [l|] eqn:E; simpl in Ht1; [|done].
    subst r2. destruct (observe_stored post2 t2 num nd2 r1.1 l _ E Ht1) as (_ & -> & _).
    unfold edge_out. simpl. rewrite H3. repeat case_decide; try done; tauto. }
  split; [done|]. split; [done|]. split; [done|].
  rewrite Ht2. unfold edge_tracker. simpl. rewrite H3.
  repeat case_decide; try done; try tauto; congruence.
Qed.

Lemma closing_through_another_status_witness :
  let r1 := observe delivers 2000 "12345" (cse110 "WAITLIST") st_open in
  let r2 := observe delivers 3000 "12345" (cse110 "FULL") r1.1 in
  tracker_of st_open "12345" = Some (Tracker 1 1000 "OPEN")
  ∧ r1.2 = [] ∧ r2.2 = []
  ∧ tracker_of r2.1 "12345" = Some (Tracker 1 1000 "FULL").
Proof.
  intros r1 r2.
  assert (tracker_of st_open "12345" = Some (Tracker 1 1000 "OPEN")) as Ht
    by (vm_compute; reflexivity).
  assert (status (cse110 "WAITLIST") ≠ "OPEN") as H1 by discriminate.
  assert (status (cse110 "WAITLIST") ≠ "FULL") as H2 by discriminate.
  destruct (closing_through_another_status delivers delivers 2000 3000 "12345"
              (cse110 "WAITLIST") (cse110 "FULL") st_open (Tracker 1 1000 "OPEN")
              Ht eq_refl H1 H2 eq_refl) as (H3 & H4 & _ & H5).
  split; [exact Ht|]. split; [exact H3|]. split; [exact H4|exact H5].
Defined.

Lemma tracker_of_update_topic topic st k :
  tracker_of (update_settings None (Some topic) st) k = tracker_of st k.
Proof. done. Qed.

(** X16. While no topic is set, a rising edge posts nothing but is booked
    all the same: the tracker is left at count 1 and OPEN, and once a topic
    is set the next observation of OPEN sends nothing either. *)
Theorem edge_without_topic_is_lost post1 post2 t1 t2 num nd1 nd2 topic st t :
  ntfyTopic (app_settings st) = "" →
  tracker_of st num = Some t → lastStatus t ≠ "OPEN" →
  status nd1 = "OPEN" → status nd2 = "OPEN" →
  let r1 := observe post1 t1 num nd1 st in
  let r2 := observe post2 t2 num nd2 (update_settings None (Some topic) r1.1) in
  r1.2 = [Notification "OPEN" nd1 NoTopic]
  ∧ tracker_of r1.1 num = Some (Tracker 1 t1 "OPEN")
  ∧ r2.2 = [].
Proof.
  intros Htopic Ht Hold Hs1 Hs2 r1 r2.
  assert (edge_tracker t1 (status nd1) t = Tracker 1 t1 "OPEN") as He.
  { unfold edge_tracker. rewrite Hs1.
    repeat case_decide; try done; exfalso; auto. }
  pose proof (observe_tracker_of_stored post1 t1 num nd1 st t Ht) as Ht1.
  fold r1 in Ht1. rewrite He in Ht1.
  split; [|split; [done|]].
  - unfold tracker_of in Ht.
    destruct (notify_tracker st !! num) as [l|] eqn:E; simpl in Ht; [|done].
    subst r1. destruct (observe_stored post1 t1 num nd1 st l t E Ht) as (_ & -> & _).
    unfold edge_out, send_notification. rewrite Hs1, Htopic.
    repeat case_decide; try done; exfalso; auto.
  - rewrite <- (tracker_of_update_topic topic) in Ht1.
    unfold tracker_of in Ht1.
    destruct (notify_tracker (update_settings None (Some topic) r1.1) !! num)
      as [l|] eqn:E; simpl in Ht1; [|done].
    subst r2.
    destruct (observe_stored post2 t2 num nd2 _ l _ E Ht1) as (_ & -> & _).
    unfold edge_out. simpl. by rewrite Hs2, decide_True.
Qed.

Lemma edge_without_topic_is_lost_witness :
  let st := update_settings None (Some "") st_full in
  let r1 := observe delivers 2000 "12345" (cse110 "OPEN") st in
  let r2 := observe delivers 3000 "12345" (cse110 "OPEN")
              (update_settings None (Some "alerts") r1.1) in
  ntfyTopic (app_settings st) = ""
  ∧ tracker_of st "12345" = Some fresh_tracker
  ∧ r1.2 = [Notification "OPEN" (cse110 "OPEN") NoTopic]
  ∧ r2.2 = [].
Proof.
  intros st r1 r2.
  assert (tracker_of st "12345" = Some fresh_tracker) as Ht by (vm_compute; reflexivity).
  assert (lastStatus fresh_tracker ≠ "OPEN") as Hold by discriminate.
  destruct (edge_without_topic_is_lost delivers delivers 2000 3000 "12345"
              (cse110 "OPEN") (cse110 "OPEN") "alerts" st fresh_tracker
              eq_refl Ht Hold eq_refl eq_refl) as (H1 & _ & H3).
  split; [reflexivity|]. split; [exact Ht|]. split; [exact H1|exact H3].
Defined.

(** X17. For a class without a stored tracker every observation of OPEN
    sends the seat-opened notification and leaves [notify_tracker] without an
    entry for it, so the next observation does the same. *)
Theorem observe_without_tracker post now num nd st :
  notify_tracker st !! num = None → status nd = "OPEN" →
  (observe post now num nd st).2 = [send_notification post st nd "OPEN"]
  ∧ notify_tracker (observe post now num nd st).1 !! num = None
  ∧ tracked_classes (observe post now num nd st).1 !! num = Some nd.
Proof.
  intros Hk Hs.
  destruct (observe_frame post now num nd st) as (-> & _ & -> & _).
  split; [|split; [done|apply lookup_insert_eq]].
  rewrite (observe_absent _ _ _ _ _ Hk). unfold edge_out. by rewrite Hs.
Qed.

Lemma observe_without_tracker_witness :
  notify_tracker st_unseen !! "12345" = None
  ∧ status (cse110 "OPEN") = "OPEN"
  ∧ (observe delivers 1000 "12345" (cse110 "OPEN") st_unseen).2
    = [send_notification delivers st_unseen (cse110 "OPEN") "OPEN"]
  ∧ notify_tracker (observe delivers 1000 "12345" (cse110 "OPEN") st_unseen).1
      !! "12345" = None.
Proof.
  assert (notify_tracker st_unseen !! "12345" = None) as Hk by (vm_compute; reflexivity).
  destruct (observe_without_tracker delivers 1000 "12345" (cse110 "OPEN") st_unseen
              Hk eq_refl) as (H1 & H2 & _).
  split; [exact Hk|]. split; [reflexivity|]. split; [exact H1|exact H2].
Defined.

(** ** Several entries for one class number *)

Lemma fresh_details_map_snoc l d :
  fresh_details_map (l ++ [d]) = <[classNumber d := d]> (fresh_details_map l).
Proof. unfold fresh_details_map. by rewrite foldl_app. Qed.

Lemma fresh_details_map_app_skip l1 l2 k :
  Forall (λ x, classNumber x ≠ k) l2 →
  fresh_details_map (l1 ++ l2) !! k = fresh_details_map l1 !! k.
Proof.
  unfold fresh_details_map. rewrite foldl_app.
  generalize (foldl (λ m d, <[classNumber d := d]> m) (∅ : gmap string details) l1).
  induction l2 as [|x l2 IH]; intros m Hall; simpl; [done|].
  apply Forall_cons in Hall as [Hx Hall].
  rewrite IH by done. by rewrite lookup_insert_ne.
Qed.

Lemma immediate_check_loop_skip post now k pre l st :
  Forall (λ x, classNumber x ≠ k) pre →
  immediate_check_loop post now k (pre ++ l) st = immediate_check_loop post now k l st.
Proof.
  induction pre as [|x pre IH]; intros Hall; simpl; [done|].
  apply Forall_cons in Hall as [Hx Hall].
  rewrite decide_False by done. by apply IH.
Qed.

(** X18. Of the entries of a fetch result that carry the class number, the
    status check files the last one (line 113) and the immediate check acts
    on the first one (lines 91 and 101), wherever in the list they stand; a
    fetch result without the number gives the status check no entry and
    leaves the immediate check without effect. *)
Theorem duplicate_entries post now k st :
  (∀ pre d rest,
     classNumber d = k → Forall (λ x, classNumber x ≠ k) rest →
     fresh_details_map (pre ++ d :: rest) !! k = Some d)
  ∧ (∀ pre d rest,
     classNumber d = k → Forall (λ x, classNumber x ≠ k) pre →
     immediate_check_loop post now k (pre ++ d :: rest) st
     = immediate_check_match post now k d st)
  ∧ (∀ l,
     Forall (λ x, classNumber x ≠ k) l →
     fresh_details_map l !! k = None
     ∧ immediate_check_loop post now k l st = (st, [])).
Proof.
  split; [|split].
  - intros pre d rest Hd Hrest.
    rewrite (cons_middle d pre rest), app_assoc.
    rewrite fresh_details_map_app_skip by done.
    rewrite fresh_details_map_snoc, Hd. apply lookup_insert_eq.
  - intros pre d rest Hd Hpre.
    rewrite immediate_check_loop_skip by done. simpl. by rewrite decide_True.
  - intros l Hall. split; [by apply fresh_details_map_None|].
    rewrite <- (app_nil_r l). by rewrite immediate_check_loop_skip.
Qed.

Lemma duplicate_entries_witness :
  let l := [mat265 "FULL"; cse110 "OPEN"; mat265 "OPEN"; cse110 "FULL"; mat265 "FULL"] in
  classNumber (cse110 "OPEN") = "12345"
  ∧ Forall (λ x, classNumber x ≠ "12345") [mat265 "FULL"]
  ∧ fresh_details_map l !! "12345" = Some (cse110 "FULL")
  ∧ immediate_check_loop delivers 0 "12345" l initial_state
    = immediate_check_match delivers 0 "12345" (cse110 "OPEN") initial_state
  ∧ fresh_details_map [mat265 "FULL"] !! "12345" = None.
Proof.
  intros l.
  assert (Forall (λ x, classNumber x ≠ "12345") [mat265 "FULL"]) as Hall
    by (repeat constructor; discriminate).
  destruct (duplicate_entries delivers 0 "12345" initial_state) as (H1 & H2 & H3).
  split; [reflexivity|]. split; [exact Hall|].
  split; [exact (H1 [mat265 "FULL"; cse110 "OPEN"; mat265 "OPEN"] (cse110 "FULL")
                    [mat265 "FULL"] eq_refl Hall)|].
  split; [exact (H2 [mat265 "FULL"] (cse110 "OPEN")
                    [mat265 "OPEN"; cse110 "FULL"; mat265 "FULL"] eq_refl Hall)|].
  exact (proj1 (H3 [mat265 "FULL"] Hall)).
Defined.

(** ** More on adding a class *)

(** X19. When the fetch result does not contain the class, adding it files
    the posted details as its snapshot and changes nothing else: no tracker
    is made or touched, nothing is sent, and the request is answered as an
    addition, not as an error. *)
Theorem add_tracked_class_not_found fetch post now cd st :
  classNumber cd ≠ "" →
  Forall (λ x, classNumber x ≠ classNumber cd)
         (fetch (className cd) (term (app_settings st))) →
  (add_tracked_class fetch post now cd st).1.2 = set_tracked (classNumber cd) cd st
  ∧ (add_tracked_class fetch post now cd st).2 = []
  ∧ (add_tracked_class fetch post now cd st).1.1 ≠ BadRequest.
Proof.
  intros Hne Hall. unfold add_tracked_class. rewrite decide_False by done.
  by rewrite perform_immediate_check_not_found.
Qed.

Lemma add_tracked_class_not_found_witness :
  classNumber (cse110 "FULL") ≠ ""
  ∧ Forall (λ x, classNumber x ≠ classNumber (cse110 "FULL"))
      (no_data (className (cse110 "FULL")) (term (app_settings initial_state)))
  ∧ (add_tracked_class no_data delivers 0 (cse110 "FULL") initial_state).1.2
    = set_tracked "12345" (cse110 "FULL") initial_state
  ∧ (add_tracked_class no_data delivers 0 (cse110 "FULL") initial_state).2 = [].
Proof.
  assert (classNumber (cse110 "FULL") ≠ "") as Hne by discriminate.
  assert (Forall (λ x, classNumber x ≠ classNumber (cse110 "FULL"))
            (no_data (className (cse110 "FULL")) (term (app_settings initial_state))))
    as Hall by constructor.
  destruct (add_tracked_class_not_found no_data delivers 0 (cse110 "FULL")
              initial_state Hne Hall) as (H1 & H2 & _).
  split; [exact Hne|]. split; [exact Hall|]. split; [exact H1|exact H2].
Defined.

(** ** The invariant and the debounce, on the example *)

Lemma reachable_wf_witness :
  reachable st_open ∧ wf st_open ∧ counts_in_range st_open.
Proof.
  assert (reachable st_open) as H
    by exact (reachable_add (cse110_only "OPEN") delivers 1000 (cse110 "OPEN")
                initial_state reachable_initial).
  split; [exact H|exact (reachable_wf st_open H)].
Defined.

Lemma observe_twice_stored_witness :
  let r1 := observe delivers 2000 "12345" (cse110 "OPEN") st_full in
  let r2 := observe delivers 3000 "12345" (cse110 "OPEN") r1.1 in
  tracker_of st_full "12345" = Some fresh_tracker
  ∧ r2.2 = []
  ∧ tracker_of r2.1 "12345" = tracker_of r1.1 "12345".
Proof.
  intros r1 r2.
  assert (tracker_of st_full "12345" = Some fresh_tracker) as Ht
    by (vm_compute; reflexivity).
  destruct (observe_twice_stored delivers delivers 2000 3000 "12345"
              (cse110 "OPEN") (cse110 "OPEN") st_full fresh_tracker Ht eq_refl)
    as (H1 & H2 & _).
  split; [exact Ht|]. split; [exact H1|exact H2].
Defined.

(** ** A whole streak of reminders *)

Lemma hourly_streak_gen post nows : ∀ st k d t,
  wf st → tracked_classes st !! k = Some d → status d = "OPEN" →
  tracker_of st k = Some t → 0 < count t ≤ MAX_NOTIFICATIONS →
  (count t < MAX_NOTIFICATIONS → spaced (lastSent t) nows) →
  Z.of_nat (length (emitted "REMINDER" k (run (Tick post <$> nows) st).2))
    = Z.min (Z.of_nat (length nows)) (MAX_NOTIFICATIONS - count t)
  ∧ ∃ t', tracker_of (run (Tick post <$> nows) st).1 k = Some t'
          ∧ count t' = Z.min (count t + Z.of_nat (length nows)) MAX_NOTIFICATIONS.
Proof.
  unfold run. induction nows as [|now nows IH]; intros st k d t Hwf Hd Hs Ht Hc Hsp.
  { simpl. split; [lia|]. exists t. split; [done|]. lia. }
  rewrite fmap_cons. simpl.
  destruct (hourly_reminder_check_keyed post now st Hwf) as (Hwf1 & _).
  destruct (hourly_reminder_check_dicts post now st Hwf) as (Htr & _).
  pose proof (hourly_reminder_check_class post now st k Hwf) as Hcl.
  rewrite Hd, Ht in Hcl.
  destruct (hourly_reminder_check post now st) as [st1 out1]. simpl in *.
  rewrite <- Htr in Hd.
  destruct (decide (count t < MAX_NOTIFICATIONS)) as [Hlt|Hge].
  - destruct (Hsp Hlt) as [Hnow Hsp'].
    rewrite decide_True in Hcl by (split; [done|split; [lia|done]]).
    destruct Hcl as [Ha Ht1].
    destruct (IH st1 k d _ Hwf1 Hd Hs Ht1) as (Hn & t' & Ht' & Hc');
      [simpl; lia|by intros _|].
    destruct (for_each apply_op (Tick post <$> nows) st1) as [st2 out2]. simpl in *.
    rewrite emitted_app, length_app, (emitted_about _ _ out1), Ha. simpl.
    split; [lia|]. exists t'. split; [done|]. lia.
  - rewrite decide_False in Hcl by lia. destruct Hcl as [Ha Ht1].
    destruct (IH st1 k d t Hwf1 Hd Hs Ht1 Hc) as (Hn & t' & Ht' & Hc'); [lia|].
    destruct (for_each apply_op (Tick post <$> nows) st1) as [st2 out2]. simpl in *.
    rewrite emitted_app, length_app, (emitted_about _ _ out1), Ha. simpl.
    split; [lia|]. exists t'. split; [done|]. lia.
Qed.

(** X20. While the filed snapshot of a class is OPEN and its count is
    positive, reminder runs that come at least an hour apart send one
    reminder each until the count has reached MAX_NOTIFICATIONS and none
    after that: [n] such runs send the smaller of [n] and MAX_NOTIFICATIONS
    minus the count, and leave the count at the smaller of count plus [n]
    and MAX_NOTIFICATIONS. *)
Theorem hourly_streak post nows st k d t :
  wf st → tracked_classes st !! k = Some d → status d = "OPEN" →
  tracker_of st k = Some t → 0 < count t ≤ MAX_NOTIFICATIONS →
  spaced (lastSent t) nows →
  Z.of_nat (length (emitted "REMINDER" k (run (Tick post <$> nows) st).2))
    = Z.min (Z.of_nat (length nows)) (MAX_NOTIFICATIONS - count t)
  ∧ ∃ t', tracker_of (run (Tick post <$> nows) st).1 k = Some t'
          ∧ count t' = Z.min (count t + Z.of_nat (length nows)) MAX_NOTIFICATIONS.
Proof.
  intros Hwf Hd Hs Ht Hc Hsp. by eapply hourly_streak_gen.
Qed.

Lemma hourly_streak_witness :
  let nows := (λ i, 1000 + 3600000 * i) <$> [1; 2; 3; 4; 5; 6; 7; 8; 9; 10; 11; 12] in
  wf st_open
  ∧ tracked_classes st_open !! "12345" = Some (cse110 "OPEN")
  ∧ tracker_of st_open "12345" = Some (Tracker 1 1000 "OPEN")
  ∧ spaced 1000 nows
  ∧ Z.of_nat (length (emitted "REMINDER" "12345"
                        (run (Tick delivers <$> nows) st_open).2)) = 9.
Proof.
  intros nows.
  assert (tracked_classes st_open !! "12345" = Some (cse110 "OPEN")) as Hd
    by (vm_compute; reflexivity).
  assert (tracker_of st_open "12345" = Some (Tracker 1 1000 "OPEN")) as Ht
    by (vm_compute; reflexivity).
  assert (0 < count (Tracker 1 1000 "OPEN") ≤ MAX_NOTIFICATIONS) as Hc
    by (vm_compute; split; [reflexivity|discriminate]).
  assert (spaced (lastSent (Tracker 1 1000 "OPEN")) nows) as Hsp
    by (vm_compute; repeat split; discriminate).
  split; [exact wf_st_open|]. split; [exact Hd|]. split; [exact Ht|].
  split; [exact Hsp|].
  exact (proj1 (hourly_streak delivers nows st_open "12345" (cse110 "OPEN")
                  (Tracker 1 1000 "OPEN") wf_st_open Hd eq_refl Ht Hc Hsp)).
Defined.

(** ** The groups of a status check *)

(** X21. The groups of line 109 split the tracked class numbers by the class
    name of their filed snapshot: a group is never empty, holds no number
    twice, and holds exactly the numbers of the tracked classes with its
    class name. *)
Theorem classes_to_fetch_groups st cn nums :
  wf st → classes_to_fetch (tracked_classes st) !! cn = Some nums →
  nums ≠ [] ∧ NoDup nums
  ∧ ∀ k, k ∈ nums ↔ ∃ d, tracked_classes st !! k = Some d ∧ className d = cn.
Proof.
  intros Hwf Hg. pose proof (wf_keyed _ Hwf) as Hkeyed.
  assert ((cn, nums) ∈ map_to_list (classes_to_fetch (tracked_classes st))) as Hin
    by by apply elem_of_map_to_list.
  rewrite classes_to_fetch_lookup in Hg. simpl in Hg.
  case_decide as Hne; [done|]. injection Hg as <-.
  split; [done|]. split; [by apply NoDup_group|].
  intros k. rewrite <- (elem_of_tasks _ Hkeyed), elem_of_tasks_of. split.
  - intros Hk. eexists. by split.
  - intros (nums' & Hin' & Hk).
    apply elem_of_map_to_list in Hin, Hin'. congruence.
Qed.

Lemma classes_to_fetch_groups_witness :
  wf st_two
  ∧ classes_to_fetch (tracked_classes st_two) !! "CSE 110" = Some ["12345"]
  ∧ NoDup ["12345"]
  ∧ ("12345" ∈ ["12345"] ↔
     ∃ d, tracked_classes st_two !! "12345" = Some d ∧ className d = "CSE 110").
Proof.
  assert (classes_to_fetch (tracked_classes st_two) !! "CSE 110" = Some ["12345"])
    as Hg by (vm_compute; reflexivity).
  destruct (classes_to_fetch_groups st_two "CSE 110" ["12345"] wf_st_two Hg)
    as (_ & H2 & H3).
  split; [exact wf_st_two|]. split; [exact Hg|]. split; [exact H2|exact (H3 "12345")].
Defined.

(** ** A status check whose fetch raises *)


(** With a source that never raises the function is [check_class_statuses],
    and no exception leaves it. *)
Lemma check_class_statuses_raising_returns (f : source) (fetch : raising_source)
    post time_ms st :
  (∀ name term0, fetch name term0 = Some (f name term0)) →
  check_class_statuses_raising fetch post time_ms st
  = (check_class_statuses f post time_ms st, false).
Proof.
  intros Hf. unfold check_class_statuses_raising, check_class_statuses.
  case_decide; [done|].
  generalize (map_to_list (classes_to_fetch (tracked_classes st))) as groups.
  intros groups. clear H. revert st.
  induction groups as [|g groups IH]; intros st; simpl; [done|].
  rewrite Hf. unfold check_group at 1.
  destruct (for_each _ g.2 st) as [st1 out1]. rewrite IH.
  by destruct (for_each (check_group f post time_ms) groups st1).
Qed.






(** X25. A status check whose fetches return handles every tracked class as
    the per-entity branch alone does with the fetch result of the class's
    own group: snapshot, tracker and notifications of the class are the same,
    and they do not depend on what the fetch returns for any other group. *)
Theorem check_class_statuses_by_group fetch post time_ms st k d :
  wf st → tracked_classes st !! k = Some d →
  (let one := check_num post time_ms
                (fresh_details_map (fetch (className d) (term (app_settings st)))) k st in
   tracked_classes (check_class_statuses fetch post time_ms st).1 !! k
     = tracked_classes one.1 !! k
   ∧ tracker_of (check_class_statuses fetch post time_ms st).1 k = tracker_of one.1 k
   ∧ about k (check_class_statuses fetch post time_ms st).2 = one.2)
  ∧ (∀ fetch',
     fetch' (className d) (term (app_settings st))
       = fetch (className d) (term (app_settings st)) →
     tracked_classes (check_class_statuses fetch post time_ms st).1 !! k
       = tracked_classes (check_class_statuses fetch' post time_ms st).1 !! k
     ∧ tracker_of (check_class_statuses fetch post time_ms st).1 k
       = tracker_of (check_class_statuses fetch' post time_ms st).1 k
     ∧ about k (check_class_statuses fetch post time_ms st).2
       = about k (check_class_statuses fetch' post time_ms st).2).
Proof.
  intros Hwf Hd.
  destruct (check_class_statuses_keyed fetch post time_ms st Hwf) as (_ & _ & Hin & _).
  destruct (Hin k d Hd) as [Hv Ha]. simpl in Hv, Ha.
  apply view_eq_inv in Hv as (Ht & _ & Htr).
  split; [by split; [|split]|].
  intros fetch' Hagree.
  destruct (check_class_statuses_keyed fetch' post time_ms st Hwf) as (_ & _ & Hin' & _).
  destruct (Hin' k d Hd) as [Hv' Ha']. simpl in Hv', Ha'.
  apply view_eq_inv in Hv' as (Ht' & _ & Htr').
  rewrite Hagree in Ht', Htr', Ha'.
  split; [congruence|]. split; congruence.
Qed.

Lemma check_class_statuses_by_group_witness :
  let r := check_class_statuses (mat265_only "OPEN") delivers (λ _, 2000) st_two in
  let r' := check_class_statuses both_open delivers (λ _, 2000) st_two in
  wf st_two
  ∧ tracked_classes st_two !! "67890" = Some (mat265 "FULL")
  ∧ tracker_of r.1 "67890" = tracker_of r'.1 "67890"
  ∧ about "67890" r.2 = about "67890" r'.2.
Proof.
  intros r r'.
  assert (tracked_classes st_two !! "67890" = Some (mat265 "FULL")) as Hd
    by (vm_compute; reflexivity).
  destruct (check_class_statuses_by_group (mat265_only "OPEN") delivers (λ _, 2000)
              st_two "67890" (mat265 "FULL") wf_st_two Hd) as [_ H].
  assert (both_open (className (mat265 "FULL")) (term (app_settings st_two))
          = mat265_only "OPEN" (className (mat265 "FULL")) (term (app_settings st_two)))
    as Hagree by reflexivity.
  destruct (H both_open Hagree) as (_ & H2 & H3).
  split; [exact wf_st_two|]. split; [exact Hd|]. split; [exact H2|exact H3].
Defined.
